(** * Offer scrapers: normalisers, provider aggregation, change detection

    A shallow embedding of [scraper/scrape_fiber.py], [scraper/scrape_tv.py]
    and [scraper/scrape_mobil.py], with the properties of their
    normalisation and change-detection pipeline.

    Conventions of the embedding.
    - A Python [str] is a Rocq [string] holding one character per code
      point; the model covers code points below 256 (ASCII and Latin-1),
      which is enough for the Danish markers the code looks for.
    - A Python [int] is a [Z]; a Python [float] is a binary64 value
      ([PyFloat.float64]) with round-to-nearest-even written out on
      integers.
    - A Python value of dynamic type is a [pyval]; a record
      ([Dict[str, Any]]) is a [gmap string pyval].
    - [try: ... except: pass] is a computation in [option] whose [None]
      is the raised exception.
    - A provider's scraper function is what its one call in the run does
      ([Scraper.outcome]); the clock, the environment variables and the
      data files are inputs of [main], the files written, the log and the
      way [main] ends are its results.
    - Records are taken by value: the aggregator of the TV and mobile
      scrapers updates the dicts it is given in place, which shows only
      when a scraper returns one dict object twice; nothing below depends
      on it.
    - Integers are unbounded; the limit Python puts on the conversion
      between very long integers and text is left out, and so are field
      values of type [float] or [bool]. *)

From Stdlib Require Import ZArith Lia Ascii String SpecFloat.
From stdpp Require Import gmap strings list pretty.

Local Open Scope string_scope.
Local Open Scope list_scope.
Local Open Scope Z_scope.

(** ** Python strings *)

Module PyStr.

Definition code (c : ascii) : N := N_of_ascii c.

Definition in_range (lo hi : N) (c : ascii) : bool :=
  ((lo <=? code c) && (code c <=? hi))%N.

(** [\d] of [re] and the digits [int] and [float] accept. *)
Definition is_digit (c : ascii) : bool := in_range 48 57 c.

Definition digit_val (c : ascii) : Z := Z.of_N (code c - 48).

(** The characters [float] strips from both ends. *)
Definition is_space (c : ascii) : bool :=
  in_range 9 13 c || in_range 28 32 c
  || (code c =? 133)%N || (code c =? 160)%N.

Definition lower_char (c : ascii) : ascii :=
  if in_range 65 90 c || in_range 192 214 c || in_range 216 222 c
  then ascii_of_N (code c + 32) else c.

(** [s.lower()] *)
Fixpoint lower (s : string) : string :=
  match s with
  | EmptyString => EmptyString
  | String c s' => String (lower_char c) (lower s')
  end.

(** [sub in s] *)
Fixpoint contains (sub s : string) : bool :=
  String.prefix sub s ||
  match s with
  | EmptyString => false
  | String _ s' => contains sub s'
  end.

(** [s.replace(old, new)] for a non-empty [old]: occurrences are
    replaced from left to right without overlap. [skip] counts the
    characters of a matched occurrence that are still to be passed. *)
Fixpoint replace_from (old new : string) (skip : nat) (s : string) : string :=
  match s with
  | EmptyString => EmptyString
  | String c s' =>
      match skip with
      | S k => replace_from old new k s'
      | O =>
          if String.prefix old s
          then new +:+ replace_from old new (Nat.pred (String.length old)) s'
          else String c (replace_from old new 0 s')
      end
  end.

Definition replace (old new s : string) : string := replace_from old new 0 s.

Fixpoint lstrip (s : string) : string :=
  match s with
  | EmptyString => EmptyString
  | String c s' => if is_space c then lstrip s' else s
  end.

Definition all_space (s : string) : bool :=
  match lstrip s with EmptyString => true | _ => false end.

Fixpoint rstrip (s : string) : string :=
  match s with
  | EmptyString => EmptyString
  | String c s' => if all_space s then EmptyString else String c (rstrip s')
  end.

Definition strip (s : string) : string := rstrip (lstrip s).

(** The longest prefix of digits and what follows it. *)
Fixpoint span_digits (s : string) : string * string :=
  match s with
  | EmptyString => (EmptyString, EmptyString)
  | String c s' =>
      if is_digit c
      then let '(d, r) := span_digits s' in (String c d, r)
      else (EmptyString, s)
  end.

(** The number a string of digits denotes, most significant first. *)
Fixpoint digits_value (acc : Z) (s : string) : Z :=
  match s with
  | EmptyString => acc
  | String c s' => digits_value (10 * acc + digit_val c) s'
  end.

(** [re.findall(r'\d+', s)], first element: the first maximal run of
    digits, [None] when the list is empty. *)
Fixpoint first_digits (s : string) : option string :=
  match s with
  | EmptyString => None
  | String c s' =>
      if is_digit c then Some (fst (span_digits s)) else first_digits s'
  end.

(** [re.findall(r'\d+\.?\d*', s)], first element: digits, then an
    optional point, then digits, all greedy. *)
Fixpoint first_decimal (s : string) : option string :=
  match s with
  | EmptyString => None
  | String c s' =>
      if is_digit c then
        let '(ip, r) := span_digits s in
        match r with
        | String "." r' => Some (ip +:+ "." +:+ fst (span_digits r'))
        | _ => Some ip
        end
      else first_decimal s'
  end.

(** Some character of [s] satisfies [P]; every character does. *)
Fixpoint any_char (P : ascii -> bool) (s : string) : bool :=
  match s with
  | EmptyString => false
  | String c s' => P c || any_char P s'
  end.

Fixpoint all_char (P : ascii -> bool) (s : string) : bool :=
  match s with
  | EmptyString => true
  | String c s' => P c && all_char P s'
  end.

(** The text contains a minus sign; the text contains a digit. *)
Definition has_minus (s : string) : bool := any_char (Ascii.eqb "-") s.
Definition has_digit (s : string) : bool := any_char is_digit s.

End PyStr.

(** ** Python floats: binary64, round to nearest, ties to even *)

Module PyFloat.
Import PyStr.

(** A finite value is [m * 2^e] with its sign apart, [0 <= m <= 2^53]. *)
Inductive float64 : Type :=
| FNaN
| FInf (neg : bool)
| FFin (neg : bool) (m e : Z).

(** The integer part of the binary logarithm of [p / q], for [0 < p]
    and [0 < q]. *)
Definition ilog2 (p q : Z) : Z :=
  let a := Z.log2 p in
  let b := Z.log2 q in
  if q * 2 ^ a <=? p * 2 ^ b then a - b else a - b - 1.

(** The binary64 value nearest to [p / q], for [0 <= p] and [0 < q]:
    53 bits of [p / q] unless that goes below the least exponent, the
    rest rounded to nearest with ties to even, and an infinity from
    [2^1024] on. *)
Definition round64 (neg : bool) (p q : Z) : float64 :=
  if p =? 0 then FFin neg 0 0 else
  let e := Z.max (ilog2 p q - 52) (-1074) in
  let num := p * 2 ^ Z.max 0 (- e) in
  let den := q * 2 ^ Z.max 0 e in
  let m0 := num / den in
  let r := num mod den in
  let m :=
    if 2 * r <? den then m0
    else if den <? 2 * r then m0 + 1
    else if Z.even m0 then m0 else m0 + 1 in
  if 1024 <=? Z.log2 m + e then FInf neg else FFin neg m e.

(** [x * y] *)
Definition fmul (x y : float64) : float64 :=
  match x, y with
  | FNaN, _ | _, FNaN => FNaN
  | FInf s, FInf t => FInf (xorb s t)
  | FInf s, FFin t m _ | FFin t m _, FInf s =>
      if m =? 0 then FNaN else FInf (xorb s t)
  | FFin s m1 e1, FFin t m2 e2 =>
      let e := e1 + e2 in
      round64 (xorb s t) (m1 * m2 * 2 ^ Z.max 0 e) (2 ^ Z.max 0 (- e))
  end.

(** [int(x)]: truncation toward zero; [None] is the [OverflowError] on
    an infinity or the [ValueError] on a NaN. *)
Definition to_int (x : float64) : option Z :=
  match x with
  | FNaN | FInf _ => None
  | FFin neg m e =>
      let mag := if 0 <=? e then m * 2 ^ e else m / 2 ^ (- e) in
      Some (if neg then - mag else mag)
  end.

Definition of_Z (z : Z) : float64 := round64 (z <? 0) (Z.abs z) 1.

(** Underscores are accepted between two digits only. [prev] is the
    character before [s]. *)
Fixpoint underscores_ok (prev : ascii) (s : string) : bool :=
  match s with
  | EmptyString => negb (Ascii.eqb prev "_")
  | String c s' =>
      (if Ascii.eqb c "_" then is_digit prev
       else if Ascii.eqb prev "_" then is_digit c else true)
      && underscores_ok c s'
  end.

Fixpoint remove_underscores (s : string) : string :=
  match s with
  | EmptyString => EmptyString
  | String c s' =>
      if Ascii.eqb c "_" then remove_underscores s'
      else String c (remove_underscores s')
  end.

(** The exponent part: empty, or [e] or [E], an optional sign and at
    least one digit, up to the end of the string. *)
Definition parse_exponent (s : string) : option Z :=
  match s with
  | EmptyString => Some 0
  | String c s' =>
      if Ascii.eqb c "e" || Ascii.eqb c "E" then
        let '(neg, ds) :=
          match s' with
          | String "-" t => (true, t)
          | String "+" t => (false, t)
          | _ => (false, s')
          end in
        match span_digits ds with
        | (String d ds', EmptyString) =>
            let v := digits_value 0 (String d ds') in
            Some (if neg then - v else v)
        | _ => None
        end
      else None
  end.

(** An unsigned literal: [inf], [infinity], [nan] in any case, or
    digits with an optional point and exponent. *)
Definition parse_unsigned (neg : bool) (s : string) : option float64 :=
  let l := lower s in
  if String.eqb l "inf" || String.eqb l "infinity" then Some (FInf neg)
  else if String.eqb l "nan" then Some FNaN
  else
    let '(ip, r1) := span_digits s in
    let '(fp, r2) :=
      match r1 with
      | String "." r => span_digits r
      | _ => (EmptyString, r1)
      end in
    match ip +:+ fp with
    | EmptyString => None
    | String _ _ =>
        match parse_exponent r2 with
        | None => None
        | Some ex =>
            let sc := ex - Z.of_nat (String.length fp) in
            Some (round64 neg
                    (digits_value 0 (ip +:+ fp) * 10 ^ Z.max 0 sc)
                    (10 ^ Z.max 0 (- sc)))
        end
    end.

(** [float(s)] on a string; [None] is the [ValueError]. *)
Definition of_string (s : string) : option float64 :=
  let t := strip s in
  if underscores_ok "000" t then
    match remove_underscores t with
    | String "-" r => parse_unsigned true r
    | String "+" r => parse_unsigned false r
    | r => parse_unsigned false r
    end
  else None.

(** The same value in the Standard Library's specification of IEEE 754
    arithmetic. *)
Definition to_spec (x : float64) : spec_float :=
  match x with
  | FNaN => S754_nan
  | FInf neg => S754_infinity neg
  | FFin neg (Z.pos m) e => S754_finite neg m e
  | FFin neg _ _ => S754_zero neg
  end.

(** Not below zero: a NaN, plus infinity, or a finite value with the
    sign bit clear. *)
Definition nonneg (x : float64) : Prop :=
  match x with
  | FNaN => True
  | FInf neg => neg = false
  | FFin neg m e => neg = false /\ 0 <= m
  end.

End PyFloat.

(** ** Python values and records *)

Module PyVal.
Import PyStr.

(** The values a record field holds: [None], an [int], a [str], or a
    list of [str] (the [features] of a plan). *)
Inductive pyval : Type :=
| VNone
| VInt (z : Z)
| VStr (s : string)
| VList (l : list string).

#[export] Instance pyval_eq_dec : EqDecision pyval.
Proof. solve_decision. Defined.

(** A record: [Dict[str, Any]]. *)
Abbreviation record := (gmap string pyval).

(** [d.get(k, dflt)] *)
Definition get (d : record) (k : string) (dflt : pyval) : pyval :=
  default dflt (d !! k).

(** [bool(v)], as [if v:] and [if not v:] test it. *)
Definition truthy (v : pyval) : bool :=
  match v with
  | VNone => false
  | VInt z => negb (z =? 0)
  | VStr s => negb (String.eqb s "")
  | VList l => match l with [] => false | _ => true end
  end.

(** [a == b]: on these values Python's equality is structural. *)
Definition py_eq (a b : pyval) : bool := bool_decide (a = b).

Definition hex_digit (n : N) : ascii :=
  ascii_of_N (if (n <? 10)%N then 48 + n else 87 + n).

Definition printable (c : ascii) : bool :=
  (in_range 32 126 c || in_range 161 255 c) && negb (code c =? 173)%N.

Definition backslash : ascii := ascii_of_N 92.
Definition dquote : ascii := ascii_of_N 34.

Definition escape (c : ascii) : string := String backslash (String c EmptyString).

Fixpoint repr_chars (quote : ascii) (s : string) : string :=
  match s with
  | EmptyString => EmptyString
  | String c s' =>
      (if Ascii.eqb c quote || Ascii.eqb c backslash then escape c
       else if (code c =? 9)%N then escape "t"
       else if (code c =? 10)%N then escape "n"
       else if (code c =? 13)%N then escape "r"
       else if printable c then String c EmptyString
       else escape "x" +:+ String (hex_digit (code c / 16))
              (String (hex_digit (code c mod 16)) EmptyString))
      +:+ repr_chars quote s'
  end.

(** [repr(s)] of a [str]. *)
Definition repr_str (s : string) : string :=
  let quote : ascii :=
    if contains "'" s && negb (contains (String dquote EmptyString) s)
    then dquote else "'"%char in
  String quote (repr_chars quote s) +:+ String quote EmptyString.

Fixpoint join (sep : string) (l : list string) : string :=
  match l with
  | [] => EmptyString
  | [x] => x
  | x :: l' => x +:+ sep +:+ join sep l'
  end.

(** [str(v)], which is also how an f-string renders [v]. *)
Definition py_str (v : pyval) : string :=
  match v with
  | VNone => "None"
  | VInt z => pretty z
  | VStr s => s
  | VList l => "[" +:+ join ", " (repr_str <$> l) +:+ "]"
  end.

End PyVal.

(** ** Unit normalisers ([scrape_fiber.py]) *)

Module Normalizers.
Import PyStr PyFloat PyVal.

(** The first block that returns decides; a block that is skipped, or
    whose exception is swallowed by [except: pass], is [None]. *)
Definition first_return (blocks : list (option Z)) (last : Z) : Z :=
  foldr (fun b rest => default rest b) last blocks.

(** [re.findall(r'\d+', s)] then [int(numbers[0])] if the list is not
    empty. *)
Definition extract_number (s : string) : option Z :=
  digits_value 0 <$> first_digits s.

Definition normalize_speed (speed_str : pyval) : Z :=
  if negb (truthy speed_str) then 0 else
  let speed_str := replace " " "" (lower (py_str speed_str)) in
  first_return
    [ (* Handle Gbit/s *)
      if contains "gbit" speed_str || contains "gb" speed_str then
        value ← of_string
          (replace "/s" "" (replace "gb" "" (replace "gbit" "" speed_str)));
        to_int (fmul value (of_Z 1000))
      else None;
      (* Handle Mbit/s *)
      if contains "mbit" speed_str || contains "mb" speed_str then
        value ← of_string
          (replace "/s" "" (replace "mb" "" (replace "mbit" "" speed_str)));
        to_int value
      else None;
      (* Try to extract number *)
      extract_number speed_str ]
    0.

(** [str(price_str).replace(' ', '').replace('kr', '').replace('dkk', '')
    .replace(',', '.')] *)
Definition price_text (price_str : pyval) : string :=
  replace "," "." (replace "dkk" "" (replace "kr" ""
    (replace " " "" (py_str price_str)))).

Definition normalize_price (price_str : pyval) : Z :=
  if negb (truthy price_str) then 0 else
  let price_str := price_text price_str in
  first_return
    [ number ← first_decimal price_str;
      value ← of_string number;
      to_int value ]
    0.

(** The letter a-ring, code point 229. *)
Definition a_ring : ascii := ascii_of_N 229.

Definition maaned : string := String "m" (String a_ring "ned").
Definition aar : string := String a_ring "r".

Definition normalize_contract_length (contract_str : pyval) : Z :=
  if negb (truthy contract_str) then 0 else
  let contract_str := replace " " "" (lower (py_str contract_str)) in
  first_return
    [ (* Handle months *)
      if contains maaned contract_str || contains "mdr" contract_str
      then extract_number contract_str else None;
      (* Handle years *)
      if contains aar contract_str || contains "year" contract_str
      then (fun n => n * 12) <$> extract_number contract_str else None;
      (* Try to extract number *)
      extract_number contract_str ]
    0.

End Normalizers.

(** ** Insertion-ordered dictionaries

    The lookup tables of [detect_changes] are Python dicts keyed by
    strings and iterated with [.items()]: a key keeps the position of its
    first insertion and the value of its last one. *)

Module PyDict.

Abbreviation odict V := (list (string * V)).

(** [d[k] = v] *)
Fixpoint set {V} (k : string) (v : V) (d : odict V) : odict V :=
  match d with
  | [] => [(k, v)]
  | (k', v') :: d' =>
      if String.eqb k k' then (k, v) :: d' else (k', v') :: set k v d'
  end.

(** [d[k]] when [k in d] *)
Fixpoint lookup {V} (k : string) (d : odict V) : option V :=
  match d with
  | [] => None
  | (k', v') :: d' => if String.eqb k k' then Some v' else lookup k d'
  end.

(** [k in d] *)
Definition mem {V} (k : string) (d : odict V) : bool :=
  match lookup k d with Some _ => true | None => false end.

(** [{key(x): x for x in xs}] *)
Definition comprehension {V} (key : V -> string) (xs : list V) : odict V :=
  foldl (fun d x => set (key x) x d) [] xs.

End PyDict.

(** ** Change detector ([scrape_tv.py], [scrape_mobil.py])

    The two files differ in the field that goes into the key
    ([pakke_navn] for TV, [data_GB] for mobile) and in the names of the
    counters ([new_packages] / [new_plans], ...). *)

Module ChangeDetector.
Import PyVal PyDict.

Record changes : Type := Changes {
  new_packages : Z;
  updated_packages : Z;
  removed_packages : Z;
  price_changes : Z;
  promotion_changes : Z
}.

(** [f"{pkg.get('udbyder', '')}-{pkg.get(field, '')}-{pkg.get('pris_mdr', '')}"] *)
Definition lookup_key (field : string) (pkg : record) : string :=
  py_str (get pkg "udbyder" (VStr "")) +:+ "-" +:+
  py_str (get pkg field (VStr "")) +:+ "-" +:+
  py_str (get pkg "pris_mdr" (VStr "")).

(** First loop: [if key not in old_lookup: changes['new_packages'] += 1] *)
Definition find_new (old_lookup : odict record) (ch : changes)
    (item : string * record) : changes :=
  if negb (mem item.1 old_lookup)
  then Changes (new_packages ch + 1) (updated_packages ch)
         (removed_packages ch) (price_changes ch) (promotion_changes ch)
  else ch.

(** Second loop: [if key not in new_lookup: changes['removed_packages'] += 1] *)
Definition find_removed (new_lookup : odict record) (ch : changes)
    (item : string * record) : changes :=
  if negb (mem item.1 new_lookup)
  then Changes (new_packages ch) (updated_packages ch)
         (removed_packages ch + 1) (price_changes ch) (promotion_changes ch)
  else ch.

(** Third loop, the body under [if key in old_lookup:]. *)
Definition find_updated (old_lookup : odict record) (ch : changes)
    (item : string * record) : changes :=
  let new_package := item.2 in
  match lookup item.1 old_lookup with
  | None => ch
  | Some old_package =>
      (* Check for price changes *)
      let ch :=
        if negb (py_eq (get old_package "pris_mdr" VNone)
                       (get new_package "pris_mdr" VNone))
        then Changes (new_packages ch) (updated_packages ch + 1)
               (removed_packages ch) (price_changes ch + 1)
               (promotion_changes ch)
        else ch in
      (* Check for promotion changes *)
      if negb (py_eq (get old_package "kampagne" VNone)
                     (get new_package "kampagne" VNone))
      then Changes (new_packages ch)
             (if updated_packages ch =? 0  (* Don't double count *)
              then updated_packages ch + 1 else updated_packages ch)
             (removed_packages ch) (price_changes ch)
             (promotion_changes ch + 1)
      else ch
  end.

Definition detect_changes_on (field : string)
    (old_data new_data : list record) : changes :=
  let changes := Changes 0 0 0 0 0 in
  (* Create lookup dictionaries *)
  let old_lookup := comprehension (lookup_key field) old_data in
  let new_lookup := comprehension (lookup_key field) new_data in
  let changes := foldl (find_new old_lookup) changes new_lookup in
  let changes := foldl (find_removed new_lookup) changes old_lookup in
  let changes := foldl (find_updated old_lookup) changes new_lookup in
  changes.

(** The items of [items] whose key is not in [d]. *)
Definition missing_from (d items : odict record) : Z :=
  Z.of_nat (length (filter (fun it => mem it.1 d = false) items)).

(** No field changes between shared keys: every record of the new
    snapshot whose key is in the old one has the price and the promotion
    of the old record with that key. *)
Definition unchanged_fields (field : string)
    (old_data new_data : list record) : bool :=
  let old_lookup := comprehension (lookup_key field) old_data in
  let new_lookup := comprehension (lookup_key field) new_data in
  forallb
    (fun item : string * record =>
       match lookup item.1 old_lookup with
       | None => true
       | Some old_package =>
           py_eq (get old_package "pris_mdr" VNone) (get item.2 "pris_mdr" VNone)
           && py_eq (get old_package "kampagne" VNone) (get item.2 "kampagne" VNone)
       end)
    new_lookup.

(** [any(changes.values())] *)
Definition any_values (ch : changes) : bool :=
  negb (new_packages ch =? 0) || negb (updated_packages ch =? 0)
  || negb (removed_packages ch =? 0) || negb (price_changes ch =? 0)
  || negb (promotion_changes ch =? 0).

End ChangeDetector.

(** ** Logging

    Every [logger] call of the modelled functions appends one entry; the
    message keeps the values the format string interpolates. *)

Module Log.
Import PyVal ChangeDetector.

Inductive level : Type := INFO | WARNING | ERROR.

Inductive message : Type :=
(* scrape_tv_providers, scrape_mobile_providers *)
| Starting (scraper_type : string)
| SkippingDisabled (provider : string)
| Scraping (provider : string)
| SkippingLight (provider : string)
| Found (provider : string) (n : nat)
| NoneFound (provider : string)
| ProviderError (provider : string) (e : string)
| Completed (successful failed : Z)
| TotalCollected (n : nat)
(* load_existing_data, save_data *)
| CouldNotLoad (e : string)
| Saved (n : nat)
| CouldNotSave (e : string)
(* main of the TV and mobile scrapers *)
| Started (scraper_type : string) (force : bool)
| Loaded (n : nat)
| NoDataScraped
| ChangesDetected (ch : changes)
| SavedSuccessfully
| Summary (providers total : nat) (ch : changes)
| NoChanges
(* scrape_fiber.py *)
| FiberStarting
| InvalidPlan (provider : string) (plan : record)
| ScrapedFrom (n : nat) (provider : string)
| FiberCompleted (total : nat)
| ProviderSummary (counts : list (pyval * Z)).

Definition entry : Type := level * message.

End Log.

(** ** Provider aggregator, snapshot store and run of the TV and mobile
       scrapers *)

Module Scraper.
Import PyStr PyVal PyDict ChangeDetector Log.

(** What one call of a provider's scraper function does in this run:
    it raises, or it returns a list of records. *)
Inductive outcome : Type :=
| Raises (e : string)
| Returns (items : list record).

(** An entry of [TV_PROVIDERS] / [MOBILE_PROVIDERS] / [PROVIDERS]. *)
Record provider_config : Type := Provider {
  name : string;
  scraper : outcome;
  enabled : bool
}.

(** The locals of the aggregation loop. [ticks] counts the readings of
    the clock so far. *)
Record aggregate : Type := Aggregate {
  all_packages : list record;
  successful_providers : Z;
  failed_providers : Z;
  ticks : nat;
  agg_log : list entry
}.

(** Two states of the loop that differ by [k] failed providers (and
    possibly in their log). *)
Definition ahead (k : Z) (st st' : aggregate) : Prop :=
  all_packages st = all_packages st'
  /\ successful_providers st = successful_providers st'
  /\ failed_providers st = failed_providers st' + k
  /\ ticks st = ticks st'.

(** The data file of a scraper, and whether creating its directory and
    writing it succeed in this run ([None]) or raise. *)
Inductive file_state : Type :=
| Missing
| Unreadable (e : string)
| Holds (data : list record).

Record world : Type := World {
  data_file : file_state;
  mkdir_error : option string;
  write_error : option string
}.

(** How [main] ends: it returns, or an exception leaves it. *)
Inductive exit : Type :=
| Returned
| Raised (e : string).

(** The exit status of the interpreter running [main()] as a script. *)
Definition exit_status (x : exit) : Z :=
  match x with Returned => 0 | Raised _ => 1 end.

Record run : Type := Run {
  final : world;
  run_log : list entry;
  saves : list (list record);  (* the argument of each call of save_data *)
  result : exit
}.

(** [os.getenv('SCRAPER_TYPE', 'full')] *)
Definition scraper_type (env : gmap string string) : string :=
  default "full" (env !! "SCRAPER_TYPE").

(** [os.getenv('FORCE_UPDATE', 'false').lower() == 'true'] *)
Definition force_update (env : gmap string string) : bool :=
  String.eqb (lower (default "false" (env !! "FORCE_UPDATE"))) "true".

Section Run.
(** The providers scraped in light mode, the field of the identity
    key, the providers' table and the clock
    ([datetime.now().isoformat()] at its n-th reading). *)
Variable key_providers : list string.
Variable field : string.
Variable PROVIDERS : list provider_config.
Variable now : nat -> string.

Definition load_existing_data (w : world) : list record * list entry :=
  match data_file w with
  | Missing => ([], [])
  | Unreadable e => ([], [(WARNING, CouldNotLoad e)])
  | Holds data => (data, [])
  end.

Definition save_data (w : world) (data : list record)
    : world * list entry * exit :=
  match mkdir_error w with
  | Some e => (w, [], Raised e)
  | None =>
      match write_error w with
      | Some e => (w, [(ERROR, CouldNotSave e)], Raised e)
      | None =>
          (World (Holds data) (mkdir_error w) (write_error w),
           [(INFO, Saved (length data))], Returned)
      end
  end.

(** [package['scraped_at'] = ...; package['provider'] = provider_name] *)
Definition add_metadata (provider_name : string) (t : nat)
    (package : record) : record :=
  <["provider" := VStr provider_name]>
    (<["scraped_at" := VStr (now t)]> package).

(** [scraper_type == 'light'] and [provider_name not in [...]] *)
Definition skipped_in_light (scraper_type provider_name : string) : bool :=
  String.eqb scraper_type "light"
  && negb (bool_decide (provider_name ∈ key_providers)).

(** The body of the loop over the providers. *)
Definition scrape_provider (scraper_type : string) (st : aggregate)
    (provider_config : provider_config) : aggregate :=
  let log := agg_log st in
  if negb (enabled provider_config) then
    Aggregate (all_packages st) (successful_providers st)
      (failed_providers st) (ticks st)
      (log ++ [(INFO, SkippingDisabled (name provider_config))])
  else
    let provider_name := name provider_config in
    let log := log ++ [(INFO, Scraping provider_name)] in
    if skipped_in_light scraper_type provider_name then
      Aggregate (all_packages st) (successful_providers st)
        (failed_providers st) (ticks st)
        (log ++ [(INFO, SkippingLight provider_name)])
    else
      match scraper provider_config with
      | Returns (p :: ps) =>
          let packages := p :: ps in
          Aggregate
            (all_packages st
             ++ imap (fun i => add_metadata provider_name (ticks st + i))
                  packages)
            (successful_providers st + 1) (failed_providers st)
            (ticks st + length packages)
            (log ++ [(INFO, Found provider_name (length packages))])
      | Returns [] =>
          Aggregate (all_packages st) (successful_providers st)
            (failed_providers st + 1) (ticks st)
            (log ++ [(WARNING, NoneFound provider_name)])
      | Raises e =>
          Aggregate (all_packages st) (successful_providers st)
            (failed_providers st + 1) (ticks st)
            (log ++ [(ERROR, ProviderError provider_name e)])
      end.

(** The two log lines after the loop, which report the counts. *)
Definition closing_lines (st : aggregate) : list entry :=
  [(INFO, Completed (successful_providers st) (failed_providers st));
   (INFO, TotalCollected (length (all_packages st)))].

(** The loop, from the initial locals to their value after the two
    closing log lines. *)
Definition scrape_loop (scraper_type : string) : aggregate :=
  let st :=
    foldl (scrape_provider scraper_type)
      (Aggregate [] 0 0 0 [(INFO, Starting scraper_type)]) PROVIDERS in
  Aggregate (all_packages st) (successful_providers st)
    (failed_providers st) (ticks st)
    (agg_log st ++ closing_lines st).

Definition scrape_providers (scraper_type : string) : list record :=
  all_packages (scrape_loop scraper_type).

Definition detect_changes : list record -> list record -> changes :=
  detect_changes_on field.

Definition main (env : gmap string string) (w : world) : run :=
  let scraper_type := scraper_type env in
  let force_update := force_update env in
  let log := [(INFO, Started scraper_type force_update)] in
  (* Load existing data *)
  let '(existing_data, l) := load_existing_data w in
  let log := log ++ l ++ [(INFO, Loaded (length existing_data))] in
  (* Scrape new data *)
  let st := scrape_loop scraper_type in
  let new_data := all_packages st in
  let log := log ++ agg_log st in
  match new_data with
  | [] => Run w (log ++ [(ERROR, NoDataScraped)]) [] Returned
  | _ :: _ =>
      (* Detect changes *)
      let changes := detect_changes existing_data new_data in
      let log := log ++ [(INFO, ChangesDetected changes)] in
      (* Save data if there are changes or force update is enabled *)
      if any_values changes || force_update then
        match save_data w new_data with
        | (w', l, Raised e) => Run w' (log ++ l) [new_data] (Raised e)
        | (w', l, Returned) =>
            Run w'
              (log ++ l
               ++ [(INFO, SavedSuccessfully);
                   (INFO, Summary (length PROVIDERS) (length new_data)
                            changes)])
              [new_data] Returned
        end
      else Run w (log ++ [(INFO, NoChanges)]) [] Returned
  end.

End Run.

End Scraper.

(** ** The TV scraper ([scrape_tv.py]) *)

Module TV.
Import Scraper.

(** [web] gives what each provider's scraper function does in this
    run. *)
Definition TV_PROVIDERS (web : string -> outcome) : list provider_config :=
  (fun n => Provider n (web n) true) <$>
  [ "YouSee"; "Waoo"; "Stofa"; "Boxer"; "Norlys"; "Telia TV"; "Allente";
    "TDC"; "Telenor"; "Altibox"; "Kviknet"; "CBB"; "Hiper"; "Fastspeed";
    "Ewii" ].

Definition key_providers : list string :=
  [ "YouSee"; "Waoo"; "Stofa"; "Boxer"; "Norlys" ].

Definition scrape_tv_providers (web : string -> outcome)
    (now : nat -> string) (scraper_type : string) : list PyVal.record :=
  scrape_providers key_providers (TV_PROVIDERS web) now scraper_type.

Definition detect_changes := Scraper.detect_changes "pakke_navn".

Definition main (web : string -> outcome) (now : nat -> string)
    (env : gmap string string) (w : world) : run :=
  Scraper.main key_providers "pakke_navn" (TV_PROVIDERS web) now env w.

End TV.

(** ** The mobile scraper ([scrape_mobil.py]) *)

Module Mobil.
Import Scraper.

Definition MOBILE_PROVIDERS (web : string -> outcome) : list provider_config :=
  (fun n => Provider n (web n) true) <$>
  [ "Telia"; "Telenor"; "YouSee"; "Oister"; "Lebara"; "Greentel";
    "Hallo Mobil"; "CBB"; "Stofa"; "Waoo"; "Norlys"; "Boxer"; "Callme";
    "Lycamobile"; "Gomore" ].

Definition key_providers : list string :=
  [ "Telia"; "Telenor"; "YouSee"; "Oister"; "Lebara" ].

Definition scrape_mobile_providers (web : string -> outcome)
    (now : nat -> string) (scraper_type : string) : list PyVal.record :=
  scrape_providers key_providers (MOBILE_PROVIDERS web) now scraper_type.

Definition detect_changes := Scraper.detect_changes "data_GB".

Definition main (web : string -> outcome) (now : nat -> string)
    (env : gmap string string) (w : world) : run :=
  Scraper.main key_providers "data_GB" (MOBILE_PROVIDERS web) now env w.

End Mobil.

(** ** The fiber scraper ([scrape_fiber.py]) *)

Module Fiber.
Import PyVal Normalizers Log.
Import Scraper (outcome, Raises, Returns, provider_config, Provider,
                name, scraper, enabled, exit, Returned, Raised).

Definition PROVIDERS (web : string -> outcome) : list provider_config :=
  (fun ne => Provider ne.1 (web ne.1) ne.2) <$>
  [ ("Hiper", true); ("YouSee", true); ("Telia", true); ("Stofa", true);
    ("Telenor", true); ("Waoo", true); ("Kviknet", true); ("CBB", true);
    ("Altibox", false); ("Fibia", false); ("Norlys", true);
    ("Energi Fyn", true); ("SEAS-NVE", true) ].

(** The dict literal bound to [normalized_plan]. *)
Definition normalize_plan (provider_name : string) (plan : record) : record :=
  list_to_map
    [ ("udbyder", get plan "udbyder" (VStr provider_name));
      ("hastighed_mbit",
        VInt (normalize_speed (get plan "hastighed_mbit" (VStr ""))));
      ("pris_mdr", VInt (normalize_price (get plan "pris_mdr" (VStr ""))));
      ("bindingstid_mdr",
        VInt (normalize_contract_length
                (get plan "bindingstid_mdr" (VStr ""))));
      ("kampagne", get plan "kampagne" (VStr ""));
      ("plan_navn", get plan "plan_navn" (VStr ""));
      ("beskrivelse", get plan "beskrivelse" (VStr ""));
      ("features", get plan "features" (VList []));
      ("rating", get plan "rating" (VInt 0)) ].

(** [d[k] > 0] on a field that holds an [int]. *)
Definition positive (d : record) (k : string) : bool :=
  match d !! k with
  | Some (VInt z) => 0 <? z
  | _ => false
  end.

(** Validate required fields *)
Definition valid_plan (normalized_plan : record) : bool :=
  positive normalized_plan "hastighed_mbit"
  && positive normalized_plan "pris_mdr".

(** The inner loop: the plans kept and the warnings logged. *)
Definition normalize_and_validate (provider_name : string)
    (acc : list record * list entry) (plan : record)
    : list record * list entry :=
  let normalized_plan := normalize_plan provider_name plan in
  if valid_plan normalized_plan
  then (acc.1 ++ [normalized_plan], acc.2)
  else (acc.1, acc.2 ++ [(WARNING, InvalidPlan provider_name plan)]).

(** The body of the loop over the providers. *)
Definition scrape_provider (acc : list record * list entry)
    (provider : provider_config) : list record * list entry :=
  let '(all_plans, log) := acc in
  if negb (enabled provider)
  then (all_plans, log ++ [(INFO, SkippingDisabled (name provider))])
  else
    let log := log ++ [(INFO, Scraping (name provider))] in
    match scraper provider with
    | Returns plans =>
        let '(normalized_plans, log) :=
          foldl (normalize_and_validate (name provider)) ([], log) plans in
        (all_plans ++ normalized_plans,
         log ++ [(INFO, ScrapedFrom (length normalized_plans) (name provider))])
    | Raises e => (all_plans, log ++ [(ERROR, ProviderError (name provider) e)])
    end.

Definition scrape_all_providers (PROVIDERS : list provider_config)
    : list record * list entry :=
  foldl scrape_provider ([], []) PROVIDERS.

(** The document [save_to_json] writes. The order of [providers] is
    that of a Python set; the model keeps first occurrences. *)
Record document : Type := Document {
  last_updated : string;
  total_plans : nat;
  providers : list pyval;
  plans : list record
}.

(** The files by path, and for each path the error that creating its
    directory or writing it raises in this run, if any. *)
Record world : Type := World {
  files : gmap string document;
  io_error : string -> option string
}.

(** A value that can be an element of a set: a list cannot. *)
Definition hashable (v : pyval) : bool :=
  match v with VList _ => false | _ => true end.

(** [list(set([plan['udbyder'] for plan in data]))]: the comprehension
    raises a [KeyError] at a plan without the key, then [set] raises a
    [TypeError] at a value that is not hashable. *)
Definition providers_of (data : list record) : string + list pyval :=
  match mapM (fun plan : record => plan !! "udbyder") data with
  | None => inl "KeyError: 'udbyder'"
  | Some names =>
      if forallb hashable names then inr (remove_dups names)
      else inl "TypeError: unhashable type: 'list'"
  end.

Definition save_to_json (timestamp : string) (w : world)
    (data : list record) (output_path : string)
    : world * list entry * exit :=
  match providers_of data with
  | inl e => (w, [], Raised e)
  | inr names =>
      let output_data := Document timestamp (length data) names data in
      (* Ensure output directory exists, then write *)
      match io_error w output_path with
      | Some e => (w, [], Raised e)
      | None =>
          (World (<[output_path := output_data]> (files w)) (io_error w),
           [(INFO, Saved (length data))], Returned)
      end
  end.

(** [provider_counts[provider] = provider_counts.get(provider, 0) + 1] *)
Fixpoint count_provider (provider : pyval) (counts : list (pyval * Z))
    : list (pyval * Z) :=
  match counts with
  | [] => [(provider, 1)]
  | (p, n) :: counts' =>
      if py_eq provider p then (p, n + 1) :: counts'
      else (p, n) :: count_provider provider counts'
  end.

Record run : Type := Run {
  final : world;
  run_log : list entry;
  saves : list (string * list record);  (* path and data of each save_to_json *)
  result : exit
}.

Definition main (PROVIDERS : list provider_config) (now : nat -> string)
    (w : world) : run :=
  let log := [(INFO, FiberStarting)] in
  (* Scrape all providers *)
  let '(all_plans, l) := scrape_all_providers PROVIDERS in
  let log := log ++ l in
  (* Save to JSON *)
  let output_path := "data/fiber.json" in
  match save_to_json (now 0%nat) w all_plans output_path with
  | (w, l, Raised e) => Run w (log ++ l) [(output_path, all_plans)] (Raised e)
  | (w, l, Returned) =>
      let log := log ++ l in
      (* Also save to scraper data directory *)
      let scraper_output_path := "scraper/data/fiber.json" in
      let saved :=
        [(output_path, all_plans); (scraper_output_path, all_plans)] in
      match save_to_json (now 1%nat) w all_plans scraper_output_path with
      | (w, l, Raised e) => Run w (log ++ l) saved (Raised e)
      | (w, l, Returned) =>
          let provider_counts :=
            foldl (fun counts plan =>
                     count_provider (get plan "udbyder" VNone) counts)
              [] all_plans in
          Run w
            (log ++ l
             ++ [(INFO, FiberCompleted (length all_plans));
                 (INFO, ProviderSummary provider_counts)])
            saved Returned
      end
  end.

End Fiber.

(** ** Sample records *)

Module Samples.
Import PyVal.

(** A TV package with the four fields the change detector reads. *)
Definition package (provider plan : string) (price : Z) (promo : string)
    : record :=
  list_to_map
    [ ("udbyder", VStr provider); ("pakke_navn", VStr plan);
      ("pris_mdr", VInt price); ("kampagne", VStr promo) ].

(** A mobile plan with the four fields the change detector reads. *)
Definition mobile_plan (provider : string) (data_gb price : Z)
    (promo : string) : record :=
  list_to_map
    [ ("udbyder", VStr provider); ("data_GB", VInt data_gb);
      ("pris_mdr", VInt price); ("kampagne", VStr promo) ].

End Samples.

(** ** Checks of the embedding *)

Module Checks.
Import PyStr PyFloat PyVal Normalizers.

(** The expected results of [test_data_validation] in [test_scraper.py]. *)
Definition speed_cases : list (pyval * Z) :=
  [ (VStr "100 Mbit/s", 100); (VStr "1 Gbit/s", 1000); (VStr "500 mb", 500);
    (VStr "2 GB", 2000); (VStr "invalid", 0) ].

Definition price_cases : list (pyval * Z) :=
  [ (VStr "299 kr", 299); (VStr "399 DKK", 399); (VStr "199,50", 199);
    (VStr "invalid", 0) ].

Definition contract_cases : list (pyval * Z) :=
  [ (VStr ("12 " +:+ maaned +:+ "er"), 12); (VStr ("2 " +:+ aar), 24);
    (VStr "6 mdr", 6); (VStr "invalid", 0) ].

Definition passes (f : pyval -> Z) (cases : list (pyval * Z)) : bool :=
  forallb (fun c => f c.1 =? c.2) cases.

(** [float(s) * 1000] in the model and in the Standard Library's
    specification. *)
Definition times_1000 (s : string) : option (spec_float * spec_float) :=
  x ← of_string s;
  Some (to_spec (fmul x (of_Z 1000)),
        SFmul 53 1024 (to_spec x) (binary_normalize 53 1024 1000 0 false)).

End Checks.

(** ** Key sets of snapshots *)

Module KeySets.
Import PyVal ChangeDetector.

(** The identity keys that occur in a snapshot. *)
Definition key_set (field : string) (data : list record) : gset string :=
  list_to_set (lookup_key field <$> data).

(** The records of the two snapshots hold a price that is an integer of
    0 or more. *)
Definition price_is_natural (pkg : record) : bool :=
  match pkg !! "pris_mdr" with
  | Some (VInt z) => 0 <=? z
  | _ => false
  end.

(** Two records with the same four fields that [detect_changes] reads. *)
Definition same_read_fields (field : string) (a b : record) : Prop :=
  a !! "udbyder" = b !! "udbyder" /\ a !! field = b !! field
  /\ a !! "pris_mdr" = b !! "pris_mdr" /\ a !! "kampagne" = b !! "kampagne".

End KeySets.

(** ** Records present in both snapshots *)

Module Shared.
Import PyVal PyDict ChangeDetector.

(** The records of the new lookup table whose key is in the old one,
    each with the old record of that key. *)
Definition shared_pairs (field : string) (old_data new_data : list record)
    : list (record * record) :=
  let old_lookup := comprehension (lookup_key field) old_data in
  let new_lookup := comprehension (lookup_key field) new_data in
  omap (fun item : string * record =>
          (fun old_package => (old_package, item.2))
          <$> lookup item.1 old_lookup)
       new_lookup.

Definition price_differs (p : record * record) : bool :=
  negb (py_eq (get p.1 "pris_mdr" VNone) (get p.2 "pris_mdr" VNone)).

Definition promotion_differs (p : record * record) : bool :=
  negb (py_eq (get p.1 "kampagne" VNone) (get p.2 "kampagne" VNone)).

Definition count {A} (P : A -> bool) (l : list A) : Z :=
  Z.of_nat (length (filter (fun x => P x = true) l)).

(** The text after the last minus sign of [s], read after [acc]. *)
Fixpoint last_segment (acc s : string) : string :=
  match s with
  | EmptyString => acc
  | String c s' =>
      if Ascii.eqb c "-" then last_segment EmptyString s'
      else last_segment (acc +:+ String c EmptyString) s'
  end.

End Shared.

(** * Properties *)

(** ** Change detection *)

Module ChangeDetectorFacts.
Import PyVal PyDict ChangeDetector.

Lemma foldl_find_new old_lookup items : forall ch,
  foldl (find_new old_lookup) ch items =
  Changes (new_packages ch + missing_from old_lookup items)
    (updated_packages ch) (removed_packages ch) (price_changes ch)
    (promotion_changes ch).
Proof.
  unfold missing_from.
  induction items as [|it items IH]; intros ch.
  - destruct ch; simpl; f_equal; lia.
  - cbn [foldl]. rewrite IH, filter_cons. unfold find_new.
    destruct (mem it.1 old_lookup) eqn:E; simpl.
    + reflexivity.
    + f_equal; lia.
Qed.

Lemma foldl_find_removed new_lookup items : forall ch,
  foldl (find_removed new_lookup) ch items =
  Changes (new_packages ch) (updated_packages ch)
    (removed_packages ch + missing_from new_lookup items)
    (price_changes ch) (promotion_changes ch).
Proof.
  unfold missing_from.
  induction items as [|it items IH]; intros ch.
  - destruct ch; simpl; f_equal; lia.
  - cbn [foldl]. rewrite IH, filter_cons. unfold find_removed.
    destruct (mem it.1 new_lookup) eqn:E; simpl.
    + reflexivity.
    + f_equal; lia.
Qed.

Lemma find_updated_keeps old_lookup ch it :
  new_packages (find_updated old_lookup ch it) = new_packages ch /\
  removed_packages (find_updated old_lookup ch it) = removed_packages ch.
Proof.
  unfold find_updated.
  destruct (lookup it.1 old_lookup); [|done].
  repeat case_match; done.
Qed.

Lemma foldl_find_updated_keeps old_lookup items : forall ch,
  new_packages (foldl (find_updated old_lookup) ch items) = new_packages ch /\
  removed_packages (foldl (find_updated old_lookup) ch items)
  = removed_packages ch.
Proof.
  induction items as [|it items IH]; intros ch; simpl; [done|].
  destruct (IH (find_updated old_lookup ch it)) as [-> ->].
  apply find_updated_keeps.
Qed.

Lemma new_packages_count field old_data new_data :
  new_packages (detect_changes_on field old_data new_data) =
  missing_from (comprehension (lookup_key field) old_data)
    (comprehension (lookup_key field) new_data).
Proof.
  unfold detect_changes_on.
  rewrite (proj1 (foldl_find_updated_keeps _ _ _)).
  rewrite foldl_find_removed, foldl_find_new. simpl. lia.
Qed.

Lemma removed_packages_count field old_data new_data :
  removed_packages (detect_changes_on field old_data new_data) =
  missing_from (comprehension (lookup_key field) new_data)
    (comprehension (lookup_key field) old_data).
Proof.
  unfold detect_changes_on.
  rewrite (proj2 (foldl_find_updated_keeps _ _ _)).
  rewrite foldl_find_removed, foldl_find_new. simpl. lia.
Qed.

End ChangeDetectorFacts.



(** C1. The key of a record contains its monthly price: when only the
    price of the one record moves from 100 to 120, the old and the new
    record have different keys, and [detect_changes] reports one new and
    one removed record and no update or price change, for TV packages and
    for mobile plans alike. *)
Theorem price_change_is_new_and_removed :
  TV.detect_changes [Samples.package "X" "P" 100 ""] [Samples.package "X" "P" 120 ""]
  = ChangeDetector.Changes 1 0 1 0 0
  /\ Mobil.detect_changes [Samples.mobile_plan "X" 20 100 ""] [Samples.mobile_plan "X" 20 120 ""]
     = ChangeDetector.Changes 1 0 1 0 0
  /\ ChangeDetector.lookup_key "pakke_navn" (Samples.package "X" "P" 100 "") = "X-P-100"
  /\ ChangeDetector.lookup_key "pakke_navn" (Samples.package "X" "P" 120 "") = "X-P-120".
Proof. repeat split; vm_compute; reflexivity. Qed.

(** C2. Two records keep their keys and both change their promotion:
    [promotion_changes] is 2 but [updated_packages] is 1, because the
    guard against double counting tests the running total and not the
    record at hand. *)
Theorem second_promotion_change_not_counted :
  TV.detect_changes
    [Samples.package "A" "P1" 100 ""; Samples.package "A" "P2" 200 ""]
    [Samples.package "A" "P1" 100 "Gratis"; Samples.package "A" "P2" 200 "Gratis"]
  = ChangeDetector.Changes 0 1 0 0 2.
Proof. vm_compute. reflexivity. Qed.

(** ** Provider aggregation *)

Module AggregatorFacts.
Import PyVal Scraper.

Section Loop.
Variable key_providers : list string.
Variable now : nat -> string.
Variable scraper_type : string.

Lemma scrape_provider_ahead k st st' p :
  ahead k st st' ->
  ahead k (scrape_provider key_providers now scraper_type st p)
          (scrape_provider key_providers now scraper_type st' p).
Proof.
  intros (Hp & Hs & Hf & Ht). unfold scrape_provider, ahead.
  destruct (enabled p); simpl; [|done].
  destruct (skipped_in_light _ _ _); simpl; [done|].
  destruct (scraper p) as [e|[|x xs]]; simpl;
    rewrite ?Hp, ?Hs, ?Hf, ?Ht; repeat split; lia.
Qed.

Lemma foldl_scrape_provider_ahead k ps : forall st st',
  ahead k st st' ->
  ahead k (foldl (scrape_provider key_providers now scraper_type) st ps)
          (foldl (scrape_provider key_providers now scraper_type) st' ps).
Proof.
  induction ps as [|p ps IH]; intros st st' H; simpl; [done|].
  apply IH, scrape_provider_ahead, H.
Qed.

(** A provider that is scraped and raises, or returns nothing, only
    adds one to the failed providers. *)
Lemma scrape_provider_failed st p :
  enabled p = true ->
  skipped_in_light key_providers scraper_type (name p) = false ->
  (exists e, scraper p = Raises e) \/ scraper p = Returns [] ->
  ahead 1 (scrape_provider key_providers now scraper_type st p) st.
Proof.
  intros He Hl Hs. unfold scrape_provider, ahead. rewrite He, Hl. simpl.
  destruct Hs as [[e ->]| ->]; simpl; repeat split; lia.
Qed.

Lemma scrape_loop_failed pre p post :
  enabled p = true ->
  skipped_in_light key_providers scraper_type (name p) = false ->
  (exists e, scraper p = Raises e) \/ scraper p = Returns [] ->
  ahead 1 (scrape_loop key_providers (pre ++ p :: post) now scraper_type)
          (scrape_loop key_providers (pre ++ post) now scraper_type).
Proof.
  intros He Hl Hs. unfold scrape_loop. rewrite !foldl_app. simpl foldl.
  match goal with
  | |- ahead 1 (Aggregate (all_packages ?a) _ _ _ _)
               (Aggregate (all_packages ?b) _ _ _ _) =>
      assert (H : ahead 1 a b)
        by (apply foldl_scrape_provider_ahead, scrape_provider_failed;
            assumption)
  end.
  exact H.
Qed.

End Loop.

End AggregatorFacts.



(** C10. A provider that is enabled, is scraped in the mode of the run
    and whose scraper returns an empty list is counted with the failed
    providers, not with the successful ones, and contributes no record:
    the records and the counts, and the two closing log lines that report
    them, are those of the run in which that scraper raises. *)
Theorem empty_result_counts_as_failure
    (key_providers : list string) (now : nat -> string)
    (scraper_type : string) (pre post : list Scraper.provider_config)
    (provider_name e : string) :
  Scraper.skipped_in_light key_providers scraper_type provider_name = false ->
  let table o := pre ++ Scraper.Provider provider_name o true :: post in
  let empty := Scraper.scrape_loop key_providers (table (Scraper.Returns [])) now scraper_type in
  let raised := Scraper.scrape_loop key_providers (table (Scraper.Raises e)) now scraper_type in
  let rest := Scraper.scrape_loop key_providers (pre ++ post) now scraper_type in
  (Scraper.all_packages empty = Scraper.all_packages rest
   /\ Scraper.successful_providers empty = Scraper.successful_providers rest
   /\ Scraper.failed_providers empty = Scraper.failed_providers rest + 1)
  /\ (Scraper.all_packages empty = Scraper.all_packages raised
      /\ Scraper.successful_providers empty = Scraper.successful_providers raised
      /\ Scraper.failed_providers empty = Scraper.failed_providers raised
      /\ Scraper.closing_lines empty = Scraper.closing_lines raised).
Proof.
  intros Hl table empty raised rest.
  destruct (AggregatorFacts.scrape_loop_failed key_providers now scraper_type
              pre (Scraper.Provider provider_name (Scraper.Returns []) true)
              post eq_refl Hl) as (Hp & Hs & Hf & _); [right; reflexivity|].
  destruct (AggregatorFacts.scrape_loop_failed key_providers now scraper_type
              pre (Scraper.Provider provider_name (Scraper.Raises e) true)
              post eq_refl Hl) as (Hp' & Hs' & Hf' & _); [left; eauto|].
  subst table empty raised rest. cbv beta. unfold Scraper.closing_lines.
  rewrite Hp, Hs, Hf, Hp', Hs', Hf'. repeat split.
Qed.

(** C10 on a table of two mobile providers in light mode, the second one
    returning nothing. *)
Lemma empty_result_counts_as_failure_witness :
  let a := Scraper.Provider "Telia" (Scraper.Returns [Samples.mobile_plan "Telia" 20 99 ""]) true in
  let table o := [a] ++ Scraper.Provider "Oister" o true :: [] in
  let empty := Scraper.scrape_loop Mobil.key_providers (table (Scraper.Returns [])) (fun _ => "now") "light" in
  let raised := Scraper.scrape_loop Mobil.key_providers (table (Scraper.Raises "timeout")) (fun _ => "now") "light" in
  let rest := Scraper.scrape_loop Mobil.key_providers ([a] ++ []) (fun _ => "now") "light" in
  (Scraper.all_packages empty = Scraper.all_packages rest
   /\ Scraper.successful_providers empty = Scraper.successful_providers rest
   /\ Scraper.failed_providers empty = Scraper.failed_providers rest + 1)
  /\ (Scraper.all_packages empty = Scraper.all_packages raised
      /\ Scraper.successful_providers empty = Scraper.successful_providers raised
      /\ Scraper.failed_providers empty = Scraper.failed_providers raised
      /\ Scraper.closing_lines empty = Scraper.closing_lines raised).
Proof.
  intros a.
  apply (empty_result_counts_as_failure Mobil.key_providers (fun _ => "now")
           "light" [a] [] "Oister" "timeout"); reflexivity.
Defined.

(** ** Ordered dictionaries and unchanged snapshots *)

Module PyDictFacts.
Import PyDict.

Section Dict.
Context {V : Type}.
Implicit Types (d : odict V) (k : string) (v : V).

Lemma lookup_set_eq k v d : lookup k (set k v d) = Some v.
Proof.
  induction d as [|[k' v'] d IH]; simpl.
  - by rewrite String.eqb_refl.
  - destruct (String.eqb k k') eqn:E; simpl; rewrite ?String.eqb_refl, ?E; done.
Qed.

Lemma lookup_set_ne k k' v d : k <> k' -> lookup k' (set k v d) = lookup k' d.
Proof.
  intros Hne. induction d as [|[k0 v0] d IH]; simpl.
  - destruct (String.eqb_spec k' k); congruence.
  - destruct (String.eqb_spec k k0) as [->|]; simpl.
    + destruct (String.eqb_spec k' k0); congruence.
    + destruct (String.eqb_spec k' k0); congruence.
Qed.

Lemma set_keys_nodup k v d : NoDup d.*1 -> NoDup (set k v d).*1.
Proof.
  induction d as [|[k' v'] d IH]; simpl; intros Hd.
  - apply NoDup_singleton.
  - destruct (String.eqb_spec k k') as [->|Hne]; simpl; [done|].
    apply NoDup_cons in Hd as [Hin Hd]. apply NoDup_cons. split; [|auto].
    intros Hk. apply Hin. clear -Hk Hne.
    induction d as [|[k0 v0] d IH]; simpl in *.
    + apply list_elem_of_singleton in Hk. congruence.
    + destruct (String.eqb_spec k k0) as [->|]; simpl in *.
      * apply elem_of_cons in Hk as [->|Hk]; [congruence|].
        by apply elem_of_cons; right.
      * apply elem_of_cons in Hk as [->|Hk]; [by apply elem_of_cons; left|].
        apply elem_of_cons; right. auto.
Qed.

Lemma comprehension_keys_nodup (key : V -> string) xs :
  NoDup (comprehension key xs).*1.
Proof.
  unfold comprehension.
  assert (H : forall d, NoDup d.*1 ->
            NoDup (foldl (fun d x => set (key x) x d) d xs).*1).
  { induction xs as [|x xs IH]; intros d Hd; simpl; [done|].
    apply IH, set_keys_nodup, Hd. }
  apply H. constructor.
Qed.

Lemma lookup_elem_of k v d : NoDup d.*1 -> (k, v) ∈ d -> lookup k d = Some v.
Proof.
  induction d as [|[k' v'] d IH]; simpl; intros Hd Hin.
  - by apply elem_of_nil in Hin.
  - apply NoDup_cons in Hd as [Hk Hd].
    apply elem_of_cons in Hin as [[= <- <-]|Hin].
    + by rewrite String.eqb_refl.
    + destruct (String.eqb_spec k k') as [->|]; [|auto].
      exfalso. apply Hk. apply list_elem_of_fmap. by exists (k', v).
Qed.

End Dict.

End PyDictFacts.

Module UnchangedFacts.
Import PyVal PyDict ChangeDetector PyDictFacts.

Lemma py_eq_refl v : py_eq v v = true.
Proof. unfold py_eq. by apply bool_decide_eq_true. Qed.

Lemma missing_from_sub (d items : odict record) :
  NoDup d.*1 -> (forall it, it ∈ items -> it ∈ d) -> missing_from d items = 0.
Proof.
  intros Hd. unfold missing_from.
  induction items as [|[k v] items IH]; intros Hsub; [done|].
  assert (Hk : mem k d = true).
  { unfold mem. by rewrite (lookup_elem_of k v d Hd) by (apply Hsub; left). }
  rewrite filter_cons. simpl. rewrite decide_False by (rewrite Hk; discriminate).
  apply IH. intros it Hit. apply Hsub. by right.
Qed.

Lemma foldl_find_updated_self (d : odict record) (items : odict record) :
  NoDup d.*1 -> (forall it, it ∈ items -> it ∈ d) ->
  forall ch, foldl (find_updated d) ch items = ch.
Proof.
  intros Hd. induction items as [|[k v] items IH]; intros Hsub ch; simpl; [done|].
  rewrite IH.
  - unfold find_updated. simpl.
    rewrite (lookup_elem_of k v d Hd) by (apply Hsub; left).
    by rewrite !py_eq_refl.
  - intros it Hit. apply Hsub. by right.
Qed.

Lemma detect_changes_unchanged field data :
  detect_changes_on field data data = Changes 0 0 0 0 0.
Proof.
  unfold detect_changes_on.
  pose proof (comprehension_keys_nodup (lookup_key field) data) as Hd.
  rewrite foldl_find_updated_self by done.
  rewrite ChangeDetectorFacts.foldl_find_removed,
    ChangeDetectorFacts.foldl_find_new.
  simpl. by rewrite missing_from_sub.
Qed.

End UnchangedFacts.

Module SymmetryFacts.
Import PyVal PyDict ChangeDetector PyDictFacts.

Lemma lookup_Some_elem_of {V} k (v : V) (d : odict V) :
  lookup k d = Some v -> (k, v) ∈ d.
Proof.
  induction d as [|[k' v'] d IH]; simpl; [done|].
  destruct (String.eqb_spec k k') as [->|Hne].
  - intros [= ->]. by left.
  - intros H. right. auto.
Qed.

Lemma py_eq_sym a b : py_eq a b = py_eq b a.
Proof. unfold py_eq. apply bool_decide_ext. split; congruence. Qed.

Lemma unchanged_fields_sym field A B :
  unchanged_fields field A B = true -> unchanged_fields field B A = true.
Proof.
  unfold unchanged_fields. rewrite !forallb_forall. intros H [k o] Hin. simpl.
  destruct (lookup k (comprehension (lookup_key field) B)) as [n|] eqn:En; [|done].
  apply lookup_Some_elem_of, list_elem_of_In in En.
  specialize (H (k, n) En). simpl in H.
  rewrite (lookup_elem_of k o _ (comprehension_keys_nodup _ A)) in H
    by by apply list_elem_of_In.
  by rewrite (py_eq_sym (get n "pris_mdr" VNone)),
    (py_eq_sym (get n "kampagne" VNone)).
Qed.

Lemma foldl_find_updated_unchanged old_lookup items :
  forallb
    (fun item : string * record =>
       match lookup item.1 old_lookup with
       | None => true
       | Some old_package =>
           py_eq (get old_package "pris_mdr" VNone) (get item.2 "pris_mdr" VNone)
           && py_eq (get old_package "kampagne" VNone) (get item.2 "kampagne" VNone)
       end) items = true ->
  forall ch, foldl (find_updated old_lookup) ch items = ch.
Proof.
  induction items as [|it items IH]; intros H ch; [done|].
  cbn [forallb] in H. apply andb_true_iff in H as [Hit H].
  cbn [foldl]. rewrite IH by done. unfold find_updated.
  destruct (lookup it.1 old_lookup) as [o|]; [|done].
  apply andb_true_iff in Hit as [-> ->]. done.
Qed.

(** Without field changes the change set has only additions and
    removals. *)
Lemma detect_changes_unchanged_fields field A B :
  unchanged_fields field A B = true ->
  detect_changes_on field A B
  = Changes (missing_from (comprehension (lookup_key field) A)
                          (comprehension (lookup_key field) B))
      0
      (missing_from (comprehension (lookup_key field) B)
                    (comprehension (lookup_key field) A))
      0 0.
Proof.
  intros H. unfold detect_changes_on.
  rewrite (foldl_find_updated_unchanged _ _ H).
  by rewrite ChangeDetectorFacts.foldl_find_removed,
    ChangeDetectorFacts.foldl_find_new.
Qed.

End SymmetryFacts.

(** C9. For all snapshots [A] and [B] without field changes between
    their shared keys, the records [detect_changes] counts as new from
    [A] to [B] are as many as those it counts as removed from [B] to [A],
    and the other way round; the three other counts are 0 in both
    directions, so that each change set is the other with additions and
    removals exchanged. *)
Theorem detect_changes_symmetry (field : string) (A B : list PyVal.record) :
  ChangeDetector.unchanged_fields field A B = true ->
  let ab := ChangeDetector.detect_changes_on field A B in
  let ba := ChangeDetector.detect_changes_on field B A in
  ChangeDetector.new_packages ab = ChangeDetector.removed_packages ba
  /\ ChangeDetector.removed_packages ab = ChangeDetector.new_packages ba
  /\ ab = ChangeDetector.Changes (ChangeDetector.new_packages ab) 0
            (ChangeDetector.removed_packages ab) 0 0
  /\ ba = ChangeDetector.Changes (ChangeDetector.removed_packages ab) 0
            (ChangeDetector.new_packages ab) 0 0.
Proof.
  intros H ab ba. subst ab ba.
  rewrite (SymmetryFacts.detect_changes_unchanged_fields field A B H).
  rewrite (SymmetryFacts.detect_changes_unchanged_fields field B A
             (SymmetryFacts.unchanged_fields_sym field A B H)).
  repeat split.
Qed.

(** C9 on two snapshots that share one package, with one package only in
    the first and two only in the second. *)
Lemma detect_changes_symmetry_witness :
  let A := [Samples.package "X" "Basis" 199 ""; Samples.package "X" "Sport" 399 "Gratis"] in
  let B := [Samples.package "X" "Sport" 399 "Gratis"; Samples.package "Y" "Basis" 149 "";
            Samples.package "Y" "Film" 249 ""] in
  let ab := ChangeDetector.detect_changes_on "pakke_navn" A B in
  let ba := ChangeDetector.detect_changes_on "pakke_navn" B A in
  ChangeDetector.new_packages ab = ChangeDetector.removed_packages ba
  /\ ChangeDetector.removed_packages ab = ChangeDetector.new_packages ba
  /\ ab = ChangeDetector.Changes (ChangeDetector.new_packages ab) 0
            (ChangeDetector.removed_packages ab) 0 0
  /\ ba = ChangeDetector.Changes (ChangeDetector.removed_packages ab) 0
            (ChangeDetector.new_packages ab) 0 0.
Proof.
  intros A B. apply (detect_changes_symmetry "pakke_navn" A B). reflexivity.
Defined.

(** ** The run of the TV and mobile scrapers *)

Module RunFacts.
Import PyVal ChangeDetector Log Scraper.

Section Run.
Variable key_providers : list string.
Variable field : string.
Variable PROVIDERS : list provider_config.
Variable now : nat -> string.
Variable env : gmap string string.
Variable w : world.

Let existing_data := (load_existing_data w).1.
Let new_data := scrape_providers key_providers PROVIDERS now (scraper_type env).
Let changes := detect_changes field existing_data new_data.
Let r := main key_providers field PROVIDERS now env w.

(** What [main] does when nothing was scraped. *)
Lemma main_nothing_scraped :
  new_data = [] ->
  saves r = [] /\ final r = w /\ result r = Returned
  /\ last (run_log r) = Some (ERROR, NoDataScraped).
Proof.
  subst r new_data. unfold main, scrape_providers.
  destruct (load_existing_data w) as [ex l]. intros E. rewrite E. simpl.
  repeat split. rewrite app_comm_cons. apply last_snoc.
Qed.

(** What [main] does with the records scraped, when there are some. *)
Lemma main_some_scraped :
  new_data <> [] ->
  if any_values changes || force_update env
  then saves r = [new_data]
  else saves r = [] /\ final r = w /\ result r = Returned.
Proof.
  subst r changes existing_data new_data. unfold main, scrape_providers.
  destruct (load_existing_data w) as [ex l]. simpl.
  destruct (all_packages _) as [|x xs] eqn:E; [done|]. intros _.
  destruct (any_values _ || force_update env); [|done].
  destruct (save_data w (x :: xs)) as [[w' l'] [|e]]; done.
Qed.

End Run.

End RunFacts.

(** C3, at an input where it fails: the force flag is set and no provider
    returns a record; the TV run saves nothing. The fiber run computes no
    change set and reads no flag, and saves twice. *)
Lemma forced_run_without_records_saves_nothing :
  let env : gmap string string := {[ "FORCE_UPDATE" := "true" ]} in
  let nothing (_ : string) := Scraper.Returns [] in
  Scraper.force_update env = true
  /\ Scraper.saves (TV.main nothing (fun _ => "now") env
                      (Scraper.World Scraper.Missing None None)) = []
  /\ Fiber.saves (Fiber.main (Fiber.PROVIDERS nothing) (fun _ => "now")
                    (Fiber.World ∅ (fun _ => None)))
     = [("data/fiber.json", []); ("scraper/data/fiber.json", [])].
Proof. repeat split; vm_compute; reflexivity. Qed.

(** C3, amended. In the run of the TV and of the mobile scraper,
    [save_data] is called at most once, with the records scraped; it is
    called if and only if at least one record was scraped and the change
    set has a non-zero count or the force flag is set; when it is not
    called the data file is left as it was. The change set of a snapshot
    against itself is all zero. *)
Theorem save_iff_scraped_and_changed_or_forced
    (key_providers : list string) (field : string)
    (PROVIDERS : list Scraper.provider_config) (now : nat -> string)
    (env : gmap string string) (w : Scraper.world) :
  let existing_data := (Scraper.load_existing_data w).1 in
  let new_data :=
    Scraper.scrape_providers key_providers PROVIDERS now (Scraper.scraper_type env) in
  let changes := Scraper.detect_changes field existing_data new_data in
  let r := Scraper.main key_providers field PROVIDERS now env w in
  (Scraper.saves r = [new_data]
   \/ (Scraper.saves r = [] /\ Scraper.final r = w))
  /\ (Scraper.saves r <> [] <->
      new_data <> []
      /\ (ChangeDetector.any_values changes = true
          \/ Scraper.force_update env = true))
  /\ (forall data : list PyVal.record,
        Scraper.detect_changes field data data = ChangeDetector.Changes 0 0 0 0 0
        /\ ChangeDetector.any_values (Scraper.detect_changes field data data) = false).
Proof.
  intros existing_data new_data changes r.
  split; [|split].
  - destruct (decide (new_data = [])) as [H|H].
    + right. destruct (RunFacts.main_nothing_scraped key_providers field
                         PROVIDERS now env w H) as (? & ? & _). done.
    + pose proof (RunFacts.main_some_scraped key_providers field PROVIDERS
                    now env w H) as Hm. cbv zeta in Hm.
      fold existing_data new_data changes r in Hm.
      destruct (_ || _); [by left | right; tauto].
  - destruct (decide (new_data = [])) as [H|H].
    + destruct (RunFacts.main_nothing_scraped key_providers field
                  PROVIDERS now env w H) as (Hs & _).
      fold r in Hs. rewrite Hs. split; [done|]. intros [? _]. done.
    + pose proof (RunFacts.main_some_scraped key_providers field PROVIDERS
                    now env w H) as Hm. cbv zeta in Hm.
      fold existing_data new_data changes r in Hm.
      destruct (ChangeDetector.any_values changes) eqn:Ha;
        destruct (Scraper.force_update env) eqn:Hf; simpl in Hm.
      1-3: rewrite Hm; split; [intros _; split; [done|auto] | done].
      destruct Hm as (-> & _). split; [done|]. intros [_ [?|?]]; done.
  - intros data. unfold Scraper.detect_changes.
    by rewrite UnchangedFacts.detect_changes_unchanged.
Qed.

(** C4, at inputs where it fails: every fiber provider raises, no plan is
    collected, and the fiber run writes a snapshot without plans to both
    files and returns; no TV provider returns a record, and the TV run
    returns, so that the exit status is 0. *)
Lemma empty_batch_saved_by_fiber_and_exit_status_zero :
  let failing (_ : string) := Scraper.Raises "timeout" in
  let nothing (_ : string) := Scraper.Returns [] in
  let fiber := Fiber.main (Fiber.PROVIDERS failing) (fun _ => "now")
                 (Fiber.World ∅ (fun _ => None)) in
  let tv := TV.main nothing (fun _ => "now") ∅
              (Scraper.World Scraper.Missing None None) in
  (Fiber.scrape_all_providers (Fiber.PROVIDERS failing)).1 = []
  /\ Fiber.files (Fiber.final fiber) !! "data/fiber.json"
     = Some (Fiber.Document "now" 0 [] [])
  /\ Scraper.exit_status (Fiber.result fiber) = 0
  /\ TV.scrape_tv_providers nothing (fun _ => "now") "full" = []
  /\ Scraper.exit_status (Scraper.result tv) = 0.
Proof. repeat split; vm_compute; reflexivity. Qed.

(** C4, amended. When the providers of a TV or mobile run yield no
    record, the run calls [save_data] not at all and leaves the data file
    as it was, logs the error that no data was scraped as its last line,
    and returns: no exception leaves [main] and the exit status is 0. *)
Theorem empty_batch_is_logged_not_saved
    (key_providers : list string) (field : string)
    (PROVIDERS : list Scraper.provider_config) (now : nat -> string)
    (env : gmap string string) (w : Scraper.world) :
  Scraper.scrape_providers key_providers PROVIDERS now (Scraper.scraper_type env) = [] ->
  let r := Scraper.main key_providers field PROVIDERS now env w in
  Scraper.saves r = [] /\ Scraper.final r = w
  /\ last (Scraper.run_log r) = Some (Log.ERROR, Log.NoDataScraped)
  /\ Scraper.result r = Scraper.Returned
  /\ Scraper.exit_status (Scraper.result r) = 0.
Proof.
  intros H r.
  destruct (RunFacts.main_nothing_scraped key_providers field PROVIDERS now
              env w H) as (Hs & Hw & Hr & Hl).
  fold r in Hs, Hw, Hr, Hl. rewrite Hr. done.
Qed.

(** C4, amended, on a mobile run in which every provider returns
    nothing. *)
Lemma empty_batch_is_logged_not_saved_witness :
  let w := Scraper.World (Scraper.Holds [Samples.mobile_plan "Telia" 20 99 ""]) None None in
  let r := Mobil.main (fun _ => Scraper.Returns []) (fun _ => "now") ∅ w in
  Scraper.saves r = [] /\ Scraper.final r = w
  /\ last (Scraper.run_log r) = Some (Log.ERROR, Log.NoDataScraped)
  /\ Scraper.result r = Scraper.Returned
  /\ Scraper.exit_status (Scraper.result r) = 0.
Proof.
  intros w.
  apply (empty_batch_is_logged_not_saved Mobil.key_providers "data_GB"
           (Mobil.MOBILE_PROVIDERS (fun _ => Scraper.Returns []))
           (fun _ => "now") ∅ w).
  vm_compute. reflexivity.
Defined.

(** ** Validation in the fiber scraper *)

Module FiberFacts.
Import PyVal Log Fiber.
Import Scraper (outcome, Raises, Returns, provider_config, Provider,
                name, scraper, enabled, exit, Returned, Raised).

Lemma foldl_normalize_and_validate provider_name plans : forall acc,
  Forall (fun plan => valid_plan plan = true) acc.1 ->
  Forall (fun plan => valid_plan plan = true)
    (foldl (normalize_and_validate provider_name) acc plans).1.
Proof.
  induction plans as [|plan plans IH]; intros acc Hacc; simpl; [done|].
  apply IH. unfold normalize_and_validate.
  destruct (valid_plan (normalize_plan provider_name plan)) eqn:E; simpl; [|done].
  apply Forall_app. split; [done|]. by apply Forall_singleton.
Qed.

Lemma scrape_provider_valid acc provider :
  Forall (fun plan => valid_plan plan = true) acc.1 ->
  Forall (fun plan => valid_plan plan = true) (scrape_provider acc provider).1.
Proof.
  destruct acc as [all_plans log]. unfold scrape_provider. simpl. intros Hacc.
  destruct (enabled provider); simpl; [|done].
  destruct (scraper provider) as [e|plans]; simpl; [done|].
  pose proof (foldl_normalize_and_validate (name provider) plans
                ([], log ++ [(INFO, Scraping (name provider))])
                (Forall_nil_2 _)) as H.
  destruct (foldl _ _ plans) as [normalized_plans log']. simpl in *.
  apply Forall_app. done.
Qed.

Lemma scrape_all_providers_valid PROVIDERS :
  Forall (fun plan => valid_plan plan = true) (scrape_all_providers PROVIDERS).1.
Proof.
  unfold scrape_all_providers.
  assert (H : forall acc, Forall (fun plan => valid_plan plan = true) acc.1 ->
            Forall (fun plan => valid_plan plan = true)
              (foldl scrape_provider acc PROVIDERS).1).
  { induction PROVIDERS as [|p ps IH]; intros acc Hacc; simpl; [done|].
    apply IH, scrape_provider_valid, Hacc. }
  apply H. constructor.
Qed.

Lemma valid_plan_positive plan :
  valid_plan plan = true ->
  exists speed price,
    plan !! "hastighed_mbit" = Some (VInt speed)
    /\ plan !! "pris_mdr" = Some (VInt price)
    /\ 0 < speed /\ 0 < price.
Proof.
  unfold valid_plan, positive. intros H.
  apply andb_true_iff in H as [Hs Hp].
  destruct (plan !! "hastighed_mbit") as [[ | speed | | ]|]; try done.
  destruct (plan !! "pris_mdr") as [[ | price | | ]|]; try done.
  exists speed, price. repeat split; lia.
Qed.

(** [save_to_json] writes the data it is given, to the path it is given,
    or leaves the files as they were. *)
Lemma save_to_json_files timestamp w data output_path :
  let w' := (save_to_json timestamp w data output_path).1.1 in
  map_Forall
    (fun path doc => files w !! path = Some doc \/ plans doc = data)
    (files w').
Proof.
  unfold save_to_json.
  destruct (providers_of data) as [e|names]; simpl; [by intros ?; left|].
  destruct (io_error w output_path); simpl; [by intros ?; left|].
  intros path doc.
  destruct (decide (path = output_path)) as [->|Hne].
  - rewrite lookup_insert_eq. intros [= <-]. by right.
  - rewrite lookup_insert_ne by done. by left.
Qed.

End FiberFacts.

(** C6, at an input where it fails: a TV provider and a mobile provider
    return a record whose monthly price is 0 (and, for TV, with no
    channels); the run stores the record in the data file. *)
Lemma tv_and_mobile_records_are_not_validated :
  let pkg : PyVal.record :=
    list_to_map [ ("pakke_navn", PyVal.VStr "Basis"); ("kanaler", PyVal.VInt 0);
                  ("pris_mdr", PyVal.VInt 0) ] in
  let plan : PyVal.record :=
    list_to_map [ ("data_GB", PyVal.VInt 20); ("pris_mdr", PyVal.VInt 0) ] in
  let only (n : string) (x : PyVal.record) (m : string) :=
    if String.eqb m n then Scraper.Returns [x] else Scraper.Returns [] in
  let w := Scraper.World Scraper.Missing None None in
  Scraper.data_file (Scraper.final (TV.main (only "YouSee" pkg) (fun _ => "now") ∅ w))
  = Scraper.Holds [Scraper.add_metadata (fun _ => "now") "YouSee" 0 pkg]
  /\ Scraper.data_file (Scraper.final (Mobil.main (only "Telia" plan) (fun _ => "now") ∅ w))
     = Scraper.Holds [Scraper.add_metadata (fun _ => "now") "Telia" 0 plan]
  /\ Scraper.add_metadata (fun _ => "now") "YouSee" 0 pkg !! "pris_mdr" = Some (PyVal.VInt 0)
  /\ Scraper.add_metadata (fun _ => "now") "YouSee" 0 pkg !! "kanaler" = Some (PyVal.VInt 0)
  /\ Scraper.add_metadata (fun _ => "now") "Telia" 0 plan !! "pris_mdr" = Some (PyVal.VInt 0).
Proof. repeat split; vm_compute; reflexivity. Qed.

(** C6, amended. In the fiber run every plan that is collected has a
    speed and a monthly price that are integers above 0: a candidate
    whose normalised speed or price is 0 or less is dropped. The two
    calls of [save_to_json] are given exactly the plans collected, and a
    file of the final state is one the run found or holds those plans.
    (The TV and mobile runs validate no record.) *)
Theorem fiber_snapshot_has_only_valid_plans
    (PROVIDERS : list Scraper.provider_config) (now : nat -> string)
    (w : Fiber.world) :
  let all_plans := (Fiber.scrape_all_providers PROVIDERS).1 in
  let r := Fiber.main PROVIDERS now w in
  Forall (fun plan : PyVal.record =>
            exists speed price,
              plan !! "hastighed_mbit" = Some (PyVal.VInt speed)
              /\ plan !! "pris_mdr" = Some (PyVal.VInt price)
              /\ 0 < speed /\ 0 < price) all_plans
  /\ Forall (fun s => s.2 = all_plans) (Fiber.saves r)
  /\ map_Forall
       (fun path doc => Fiber.files w !! path = Some doc
                        \/ Fiber.plans doc = all_plans)
       (Fiber.files (Fiber.final r)).
Proof.
  intros all_plans r. split; [|split].
  - eapply Forall_impl; [apply FiberFacts.scrape_all_providers_valid|].
    apply FiberFacts.valid_plan_positive.
  - subst r all_plans. unfold Fiber.main.
    destruct (Fiber.scrape_all_providers PROVIDERS) as [ps l]. simpl.
    destruct (Fiber.save_to_json _ w ps _) as [[w1 l1] [|e1]]; simpl.
    + destruct (Fiber.save_to_json _ w1 ps _) as [[w2 l2] [|e2]]; simpl;
        repeat constructor.
    + repeat constructor.
  - subst r all_plans. unfold Fiber.main.
    destruct (Fiber.scrape_all_providers PROVIDERS) as [ps l]. simpl.
    pose proof (FiberFacts.save_to_json_files (now 0%nat) w ps "data/fiber.json") as H1.
    destruct (Fiber.save_to_json _ w ps _) as [[w1 l1] x1]. simpl in H1.
    assert (H2 : map_Forall
              (fun path doc => Fiber.files w !! path = Some doc
                               \/ Fiber.plans doc = ps) (Fiber.files
                 (Fiber.save_to_json (now 1%nat) w1 ps "scraper/data/fiber.json").1.1)).
    { intros path doc Hd.
      destruct (FiberFacts.save_to_json_files (now 1%nat) w1 ps
                  "scraper/data/fiber.json" path doc Hd) as [Hold|Hnew];
        [by apply H1|by right]. }
    destruct x1 as [|e1]; simpl; [|done].
    destruct (Fiber.save_to_json _ w1 ps _) as [[w2 l2] [|e2]]; simpl in *; done.
Qed.

(** ** Strings *)

Module PyStrFacts.
Import PyStr.

Lemma any_char_ext P Q s :
  (forall c, P c = Q c) -> any_char P s = any_char Q s.
Proof. intros H. induction s as [|c s IH]; simpl; [done|]. by rewrite H, IH. Qed.

Lemma any_char_append P s t :
  any_char P (s +:+ t) = any_char P s || any_char P t.
Proof.
  induction s as [|c s IH]; simpl; [done|]. by rewrite IH, orb_assoc.
Qed.

Lemma any_char_lower P s :
  any_char P (lower s) = any_char (fun c => P (lower_char c)) s.
Proof. induction s as [|c s IH]; simpl; [done|]. by rewrite IH. Qed.

Lemma lower_char_minus c : Ascii.eqb "-" (lower_char c) = Ascii.eqb "-" c.
Proof. destruct c as [[] [] [] [] [] [] [] []]; reflexivity. Qed.

Lemma lower_char_digit c : is_digit (lower_char c) = is_digit c.
Proof. destruct c as [[] [] [] [] [] [] [] []]; reflexivity. Qed.

Lemma has_minus_lower s : has_minus (lower s) = has_minus s.
Proof.
  unfold has_minus. rewrite any_char_lower.
  apply any_char_ext, lower_char_minus.
Qed.

Lemma has_digit_lower s : has_digit (lower s) = has_digit s.
Proof.
  unfold has_digit. rewrite any_char_lower.
  apply any_char_ext, lower_char_digit.
Qed.

(** Deleting occurrences of [old] adds no character. *)
Lemma any_char_replace_from P old s : forall skip,
  any_char P s = false -> any_char P (replace_from old "" skip s) = false.
Proof.
  induction s as [|c s IH]; intros skip; simpl; [done|].
  intros H. apply orb_false_iff in H as [Hc Hs].
  destruct skip as [|k]; [|auto].
  match goal with |- context [if ?b then _ else _] => destruct b end.
  - rewrite any_char_append. simpl. auto.
  - simpl. rewrite Hc. simpl. auto.
Qed.

Lemma any_char_delete P old s :
  any_char P s = false -> any_char P (replace old "" s) = false.
Proof. apply any_char_replace_from. Qed.

Lemma any_char_lstrip P s :
  any_char P s = false -> any_char P (lstrip s) = false.
Proof.
  induction s as [|c s IH]; simpl; [done|]. intros H.
  destruct (is_space c); [|done].
  apply orb_false_iff in H as [_ Hs]. auto.
Qed.

Lemma any_char_rstrip P s :
  any_char P s = false -> any_char P (rstrip s) = false.
Proof.
  induction s as [|c s IH]; simpl; [done|]. intros H.
  apply orb_false_iff in H as [Hc Hs].
  destruct (all_space (String c s)); simpl; [done|].
  rewrite Hc. simpl. auto.
Qed.

Lemma any_char_strip P s :
  any_char P s = false -> any_char P (strip s) = false.
Proof. intros H. by apply any_char_rstrip, any_char_lstrip. Qed.

Lemma span_digits_no_digit s :
  has_digit s = false -> span_digits s = (EmptyString, s).
Proof.
  destruct s as [|c s]; simpl; [done|]. unfold has_digit. simpl.
  intros H. apply orb_false_iff in H as [-> _]. done.
Qed.

Lemma first_digits_no_digit s : has_digit s = false -> first_digits s = None.
Proof.
  unfold has_digit. induction s as [|c s IH]; simpl; [done|].
  intros H. apply orb_false_iff in H as [-> Hs]. auto.
Qed.

Lemma digit_val_nonneg c : 0 <= digit_val c.
Proof. unfold digit_val. lia. Qed.

Lemma digits_value_nonneg s : forall acc, 0 <= acc -> 0 <= digits_value acc s.
Proof.
  induction s as [|c s IH]; intros acc Hacc; simpl; [done|].
  apply IH. pose proof (digit_val_nonneg c). lia.
Qed.

(** The digits [span_digits] takes are digits. *)
Lemma span_digits_all_digits s : all_char is_digit (span_digits s).1 = true.
Proof.
  induction s as [|c s IH]; simpl; [done|].
  destruct (is_digit c) eqn:E; [|done].
  destruct (span_digits s) as [d r]. simpl in *. by rewrite E, IH.
Qed.

Lemma all_char_append P s t :
  all_char P (s +:+ t) = all_char P s && all_char P t.
Proof.
  induction s as [|c s IH]; simpl; [done|]. by rewrite IH, andb_assoc.
Qed.

Lemma all_char_weaken (P Q : ascii -> bool) s :
  (forall c, P c = true -> Q c = true) ->
  all_char P s = true -> all_char Q s = true.
Proof.
  intros H. induction s as [|c s IH]; simpl; [done|].
  intros Hs. apply andb_true_iff in Hs as [Hc Hs].
  by rewrite (H c Hc), IH.
Qed.

Lemma all_char_not_any (P Q : ascii -> bool) s :
  (forall c, P c = true -> Q c = false) ->
  all_char P s = true -> any_char Q s = false.
Proof.
  intros H. induction s as [|c s IH]; simpl; [done|].
  intros Hs. apply andb_true_iff in Hs as [Hc Hs].
  by rewrite (H c Hc), IH.
Qed.

End PyStrFacts.

(** ** Floats *)

Module PyFloatFacts.
Import PyStr PyFloat PyStrFacts.

Lemma round64_nonneg p q : 0 <= p -> 0 < q -> nonneg (round64 false p q).
Proof.
  intros Hp Hq. unfold round64.
  destruct (p =? 0); [simpl; lia|].
  cbv zeta.
  set (e := Z.max _ (-1074)).
  set (num := p * 2 ^ Z.max 0 (- e)).
  set (den := q * 2 ^ Z.max 0 e).
  assert (0 <= num) by (subst num; apply Z.mul_nonneg_nonneg; [lia|apply Z.pow_nonneg; lia]).
  assert (0 < den) by (subst den; apply Z.mul_pos_pos; [lia|apply Z.pow_pos_nonneg; lia]).
  assert (0 <= num / den) by (apply Z.div_pos; lia).
  repeat case_match; simpl; try done; split; try done; lia.
Qed.

Lemma fmul_nonneg x y : nonneg x -> nonneg y -> nonneg (fmul x y).
Proof.
  destruct x as [|s|s m1 e1], y as [|t|t m2 e2]; simpl; try done.
  - by intros -> ->.
  - intros -> [-> _]. by destruct (m2 =? 0).
  - intros [-> _] ->. by destruct (m1 =? 0).
  - intros [-> H1] [-> H2]. simpl. apply round64_nonneg.
    + apply Z.mul_nonneg_nonneg; [nia|apply Z.pow_nonneg; lia].
    + apply Z.pow_pos_nonneg; lia.
Qed.

Lemma to_int_nonneg x z : nonneg x -> to_int x = Some z -> 0 <= z.
Proof.
  destruct x as [|s|s m e]; simpl; try done.
  intros [-> Hm] [= <-].
  destruct (0 <=? e) eqn:E.
  - apply Z.mul_nonneg_nonneg; [lia|apply Z.pow_nonneg; lia].
  - apply Z.div_pos; [lia|apply Z.pow_pos_nonneg; lia].
Qed.

Lemma parse_unsigned_nonneg s x :
  parse_unsigned false s = Some x -> nonneg x.
Proof.
  unfold parse_unsigned.
  destruct (_ || _); [by intros [= <-]|].
  destruct (String.eqb _ "nan"); [by intros [= <-]|].
  destruct (span_digits s) as [ip r1].
  destruct (match r1 with String "." r => span_digits r | _ => (EmptyString, r1) end)
    as [fp r2].
  destruct (ip +:+ fp) as [|c ds] eqn:E; [done|].
  destruct (parse_exponent r2) as [ex|]; [|done].
  intros [= <-]. apply round64_nonneg.
  - apply Z.mul_nonneg_nonneg; [apply digits_value_nonneg; pose proof (digit_val_nonneg c); lia|].
    apply Z.pow_nonneg; lia.
  - apply Z.pow_pos_nonneg; lia.
Qed.

Lemma any_char_remove_underscores P s :
  any_char P s = false -> any_char P (remove_underscores s) = false.
Proof.
  induction s as [|c s IH]; simpl; [done|]. intros H.
  apply orb_false_iff in H as [Hc Hs].
  destruct (Ascii.eqb c "_"); simpl; [auto|]. rewrite Hc. simpl. auto.
Qed.

(** A text without a minus sign does not parse to a value below 0. *)
Lemma of_string_nonneg s x :
  has_minus s = false -> of_string s = Some x -> nonneg x.
Proof.
  unfold of_string, has_minus. intros Hs.
  destruct (underscores_ok _ _); [|done].
  pose proof (any_char_remove_underscores _ _
                (any_char_strip _ _ Hs)) as H.
  destruct (remove_underscores (strip s)) as [|c r]; simpl in H.
  - apply parse_unsigned_nonneg.
  - apply orb_false_iff in H as [Hc _].
    destruct c as [[] [] [] [] [] [] [] []]; try discriminate Hc;
      apply parse_unsigned_nonneg.
Qed.

(** A text without digits parses to an infinity or a NaN, if at all. *)
Lemma parse_unsigned_no_digit neg s x :
  has_digit s = false -> parse_unsigned neg s = Some x ->
  x = FNaN \/ x = FInf neg.
Proof.
  intros Hs. unfold parse_unsigned.
  destruct (_ || _); [intros [= <-]; by right|].
  destruct (String.eqb _ "nan"); [intros [= <-]; by left|].
  rewrite (span_digits_no_digit s Hs).
  assert (Hfp : (match s with String "." r => span_digits r | _ => (EmptyString, s) end).1
                = EmptyString).
  { destruct s as [|c r]; [done|].
    unfold has_digit in Hs. simpl in Hs. apply orb_false_iff in Hs as [_ Hr].
    destruct c as [[] [] [] [] [] [] [] []]; try done.
    by rewrite (span_digits_no_digit r Hr). }
  destruct (match s with String "." r => span_digits r | _ => (EmptyString, s) end)
    as [fp r2]. simpl in Hfp. subst fp. done.
Qed.

Lemma of_string_no_digit s x :
  has_digit s = false -> of_string s = Some x ->
  x = FNaN \/ exists neg, x = FInf neg.
Proof.
  unfold of_string, has_digit. intros Hs.
  destruct (underscores_ok _ _); [|done].
  pose proof (any_char_remove_underscores _ _
                (any_char_strip _ _ Hs)) as H.
  destruct (remove_underscores (strip s)) as [|c r]; simpl in H.
  - intros Hp. destruct (parse_unsigned_no_digit false "" x eq_refl Hp); eauto.
  - apply orb_false_iff in H as [Hc Hr].
    assert (Hcr : has_digit (String c r) = false)
      by (unfold has_digit; simpl; by rewrite Hc, Hr).
    destruct c as [[] [] [] [] [] [] [] []];
      intros Hp;
      (destruct (parse_unsigned_no_digit _ _ x Hcr Hp) as [->| ->]
       || destruct (parse_unsigned_no_digit _ _ x Hr Hp) as [->| ->]); eauto.
Qed.

Lemma to_int_special x :
  (x = FNaN \/ exists neg, x = FInf neg) ->
  to_int x = None /\ to_int (fmul x (of_Z 1000)) = None.
Proof. intros [->|[neg ->]]; split; reflexivity. Qed.

End PyFloatFacts.

(** ** Normalisers *)

Module NormalizerFacts.
Import PyStr PyFloat PyVal Normalizers PyStrFacts PyFloatFacts.

Lemma first_return_nonneg blocks last :
  Forall (fun b => forall z, b = Some z -> 0 <= z) blocks ->
  0 <= last -> 0 <= first_return blocks last.
Proof.
  intros Hb Hl. unfold first_return.
  induction Hb as [|b bs Hb _ IH]; simpl; [done|].
  destruct b as [z|]; simpl; auto.
Qed.

Lemma first_return_none blocks last :
  Forall (fun b => b = None) blocks -> first_return blocks last = last.
Proof.
  unfold first_return. induction 1 as [|b bs -> _ IH]; simpl; done.
Qed.

(** Lowering the case and deleting the spaces adds neither a digit nor a
    minus sign. *)
Lemma has_digit_prepared s :
  has_digit s = false -> has_digit (replace " " "" (lower s)) = false.
Proof.
  intros H. apply any_char_delete. fold (has_digit (lower s)).
  by rewrite has_digit_lower.
Qed.

Lemma has_minus_prepared s :
  has_minus s = false -> has_minus (replace " " "" (lower s)) = false.
Proof.
  intros H. apply any_char_delete. fold (has_minus (lower s)).
  by rewrite has_minus_lower.
Qed.

Lemma of_Z_1000_nonneg : nonneg (of_Z 1000).
Proof. apply (round64_nonneg 1000 1); lia. Qed.

Lemma extract_number_nonneg s z : extract_number s = Some z -> 0 <= z.
Proof.
  unfold extract_number. destruct (first_digits s) as [d|]; simpl; [|done].
  intros [= <-]. apply digits_value_nonneg. lia.
Qed.

(** The token of a price is made of digits and points. *)
Lemma first_decimal_chars s tok :
  first_decimal s = Some tok ->
  all_char (fun c => is_digit c || Ascii.eqb c ".") tok = true.
Proof.
  assert (Hd : forall t, all_char (fun c => is_digit c || Ascii.eqb c ".")
                           (span_digits t).1 = true).
  { intros t. eapply all_char_weaken; [|apply span_digits_all_digits].
    by intros c ->. }
  induction s as [|c s IH]; [done|].
  cbn [first_decimal]. destruct (is_digit c) eqn:E; [|exact IH].
  pose proof (Hd (String c s)) as Hip.
  destruct (span_digits (String c s)) as [ip r]. simpl in Hip.
  assert (Hpoint : forall r',
            all_char (fun c => is_digit c || Ascii.eqb c ".")
              (ip +:+ "." +:+ (span_digits r').1) = true).
  { intros r'. rewrite !all_char_append, Hip, Hd. done. }
  destruct r as [|c' r']; [by intros [= <-]|].
  destruct c' as [[] [] [] [] [] [] [] []]; intros [= <-];
    solve [exact Hip | apply Hpoint].
Qed.

Lemma first_decimal_has_minus s tok :
  first_decimal s = Some tok -> has_minus tok = false.
Proof.
  intros H. eapply all_char_not_any; [|exact (first_decimal_chars _ _ H)].
  intros c. by destruct c as [[] [] [] [] [] [] [] []].
Qed.

End NormalizerFacts.

(** C5, at an input where it fails: a minus sign before a gigabit figure
    gives a result below 0. *)
Lemma normalize_speed_negative :
  Normalizers.normalize_speed (PyVal.VStr "-5 Gbit") = -5000
  /\ ~ 0 <= Normalizers.normalize_speed (PyVal.VStr "-5 Gbit").
Proof. split; vm_compute; [reflexivity|]. intros H. apply H. reflexivity. Qed.

(** C5, amended. [normalize_speed] returns an integer for every value (the
    exceptions of [float] and [int] are caught inside it). An absent or
    empty value gives 0, and so does a text without any digit. The result
    is 0 or more whenever the text holds no minus sign; with a minus sign
    before a gigabit or megabit figure it is below 0. *)
Theorem normalize_speed_zero_and_sign (v : PyVal.pyval) :
  (PyVal.truthy v = false -> Normalizers.normalize_speed v = 0)
  /\ (PyStr.has_digit (PyVal.py_str v) = false ->
      Normalizers.normalize_speed v = 0)
  /\ (PyStr.has_minus (PyVal.py_str v) = false ->
      0 <= Normalizers.normalize_speed v).
Proof.
  unfold Normalizers.normalize_speed.
  split; [by intros ->|].
  destruct (PyVal.truthy v); cbn [negb]; [|split; intros _; lia].
  set (s := PyStr.replace " " "" (PyStr.lower (PyVal.py_str v))).
  split.
  - intros Hd.
    assert (Hs : PyStr.has_digit s = false).
    { subst s. by apply NormalizerFacts.has_digit_prepared. }
    apply NormalizerFacts.first_return_none.
    repeat apply Forall_cons_2; try apply Forall_nil_2.
    + destruct (_ || _); [|done].
      destruct (PyFloat.of_string _) as [x|] eqn:E; [|done]. simpl.
      apply PyFloatFacts.to_int_special.
      eapply PyFloatFacts.of_string_no_digit; [|exact E].
      do 3 apply PyStrFacts.any_char_delete; exact Hs.
    + destruct (_ || _); [|done].
      destruct (PyFloat.of_string _) as [x|] eqn:E; [|done]. simpl.
      apply PyFloatFacts.to_int_special.
      eapply PyFloatFacts.of_string_no_digit; [|exact E].
      do 3 apply PyStrFacts.any_char_delete; exact Hs.
    + unfold Normalizers.extract_number.
      by rewrite PyStrFacts.first_digits_no_digit.
  - intros Hm.
    assert (Hs : PyStr.has_minus s = false).
    { subst s. by apply NormalizerFacts.has_minus_prepared. }
    apply NormalizerFacts.first_return_nonneg; [|lia].
    repeat apply Forall_cons_2; try apply Forall_nil_2.
    + intros z. destruct (_ || _); [|done].
      destruct (PyFloat.of_string _) as [x|] eqn:E; [|done]. simpl.
      apply PyFloatFacts.to_int_nonneg, PyFloatFacts.fmul_nonneg;
        [|apply NormalizerFacts.of_Z_1000_nonneg].
      eapply PyFloatFacts.of_string_nonneg; [|exact E].
      do 3 apply PyStrFacts.any_char_delete; exact Hs.
    + intros z. destruct (_ || _); [|done].
      destruct (PyFloat.of_string _) as [x|] eqn:E; [|done]. simpl.
      apply PyFloatFacts.to_int_nonneg.
      eapply PyFloatFacts.of_string_nonneg; [|exact E].
      do 3 apply PyStrFacts.any_char_delete; exact Hs.
    + apply NormalizerFacts.extract_number_nonneg.
Qed.

(** C5, amended, on an empty text, a text without digits and a gigabit
    figure. *)
Lemma normalize_speed_zero_and_sign_witness :
  Normalizers.normalize_speed (PyVal.VStr "") = 0
  /\ Normalizers.normalize_speed (PyVal.VStr "invalid") = 0
  /\ 0 <= Normalizers.normalize_speed (PyVal.VStr "1 Gbit/s").
Proof.
  split; [|split].
  - apply (normalize_speed_zero_and_sign (PyVal.VStr "")). reflexivity.
  - apply (normalize_speed_zero_and_sign (PyVal.VStr "invalid")). reflexivity.
  - apply (normalize_speed_zero_and_sign (PyVal.VStr "1 Gbit/s")). reflexivity.
Defined.

Module RoundFacts.
Import PyFloat.

Lemma pow2_split (x y : Z) : 0 <= x -> 0 <= y -> 2 ^ (x + y) = 2 ^ x * 2 ^ y.
Proof. intros. apply Z.pow_add_r; lia. Qed.

(** [2 ^ ilog2 p q <= p / q], on integers. *)
Lemma ilog2_lower p q : 0 < p -> 0 < q ->
  q * 2 ^ Z.max 0 (ilog2 p q) <= p * 2 ^ Z.max 0 (- ilog2 p q).
Proof.
  intros Hp Hq. unfold ilog2.
  pose proof (Z.log2_spec p Hp) as [Ha1 Ha2].
  pose proof (Z.log2_spec q Hq) as [Hb1 Hb2].
  pose proof (Z.log2_nonneg p) as Ha0.
  pose proof (Z.log2_nonneg q) as Hb0.
  set (a := Z.log2 p) in *. set (b := Z.log2 q) in *.
  destruct (Z.leb_spec (q * 2 ^ a) (p * 2 ^ b)) as [H|H].
  - destruct (Z.le_ge_cases b a) as [Hab|Hab].
    + rewrite (Z.max_r 0 (a - b)), (Z.max_l 0 (- (a - b))) by lia.
      assert (E : 2 ^ a = 2 ^ (a - b) * 2 ^ b).
      { rewrite <- pow2_split by lia. f_equal. lia. }
      assert (0 < 2 ^ b) by (apply Z.pow_pos_nonneg; lia).
      assert (0 < 2 ^ (a - b)) by (apply Z.pow_pos_nonneg; lia).
      change (2 ^ 0) with 1. nia.
    + rewrite (Z.max_l 0 (a - b)), (Z.max_r 0 (- (a - b))) by lia.
      replace (- (a - b)) with (b - a) by lia.
      assert (E : 2 ^ b = 2 ^ (b - a) * 2 ^ a).
      { rewrite <- pow2_split by lia. f_equal. lia. }
      assert (0 < 2 ^ a) by (apply Z.pow_pos_nonneg; lia).
      assert (0 < 2 ^ (b - a)) by (apply Z.pow_pos_nonneg; lia).
      change (2 ^ 0) with 1. nia.
  - clear H. destruct (Z.le_ge_cases 0 (a - b - 1)) as [Hab|Hab].
    + rewrite (Z.max_r 0 (a - b - 1)), (Z.max_l 0 (- (a - b - 1))) by lia.
      assert (E : 2 ^ a = 2 ^ (Z.succ b) * 2 ^ (a - b - 1)).
      { rewrite <- pow2_split by lia. f_equal. lia. }
      assert (0 < 2 ^ (a - b - 1)) by (apply Z.pow_pos_nonneg; lia).
      change (2 ^ 0) with 1. nia.
    + rewrite (Z.max_l 0 (a - b - 1)), (Z.max_r 0 (- (a - b - 1))) by lia.
      assert (E : 2 ^ (Z.succ b) = 2 ^ a * 2 ^ (- (a - b - 1))).
      { rewrite <- pow2_split by lia. f_equal. lia. }
      assert (0 < 2 ^ (- (a - b - 1))) by (apply Z.pow_pos_nonneg; lia).
      change (2 ^ 0) with 1. nia.
Qed.

Lemma ilog2_upper p q : 0 < p -> 0 < q -> ilog2 p q <= Z.log2 p.
Proof.
  intros Hp Hq. unfold ilog2. pose proof (Z.log2_nonneg q).
  destruct (_ <=? _); lia.
Qed.

(** The arithmetic of one rounding step: [m0] and [r] are the quotient
    and the remainder of [n * E] by [q], and the quotient of [n] by [q]
    is [i]; then rounding [m0] to nearest stays below [(i + 1) * E]
    provided [q < 2 * E]. *)
Lemma round_step_bounds n q E m0 r i r' m :
  0 < q -> 0 < E -> q < 2 * E ->
  n * E = q * m0 + r -> 0 <= r < q ->
  n = q * i + r' -> 0 <= r' < q ->
  (m = m0 \/ (m = m0 + 1 /\ q <= 2 * r)) ->
  i * E <= m < (i + 1) * E.
Proof.
  intros Hq HE HqE Hm0 Hr Hi Hr' Hm.
  assert (H1 : i * E <= m0) by nia.
  assert (H2 : m0 < (i + 1) * E) by nia.
  destruct Hm as [->|[-> Hup]]; [lia|].
  split; [lia|].
  destruct (Z.lt_ge_cases (m0 + 1) ((i + 1) * E)) as [|Hge]; [done|].
  assert (m0 = (i + 1) * E - 1) by lia. subst m0. nia.
Qed.

(** Below [2^52] the conversion of a quotient to binary64 and back to
    an integer is the integer quotient: no rounding up to the next
    integer. *)
Lemma round64_trunc n q :
  0 <= n < 2 ^ 52 -> 0 < q < 2 ^ 52 ->
  to_int (round64 false n q) = Some (n / q).
Proof.
  intros Hn Hq. unfold round64.
  destruct (Z.eqb_spec n 0) as [->|Hn0]; [simpl; by rewrite Z.div_0_l by lia|].
  assert (Hn' : 0 < n) by lia. destruct Hq as [Hq Hq'].
  pose proof (ilog2_lower n q Hn' Hq) as Hlow.
  pose proof (ilog2_upper n q Hn' Hq) as Hup.
  assert (Hlog : Z.log2 n < 52) by (apply Z.log2_lt_pow2; lia).
  set (lg := ilog2 n q) in *.
  cbv zeta.
  set (e := Z.max (lg - 52) (-1074)).
  assert (He : e < 0) by lia.
  rewrite (Z.max_r 0 (- e)), (Z.max_l 0 e) by lia.
  change (2 ^ 0) with 1. rewrite Z.mul_1_r.
  set (E := 2 ^ (- e)).
  assert (HE : 0 < E) by (apply Z.pow_pos_nonneg; lia).
  assert (HqE : q < 2 * E).
  { subst E e. destruct (Z.max_spec (lg - 52) (-1074)) as [[Hc ->]|[Hc ->]].
    - assert (2 ^ 52 <= 2 ^ (- -1074)) by (apply Z.pow_le_mono_r; lia). lia.
    - destruct (Z.le_ge_cases 0 lg) as [Hlg|Hlg].
      + rewrite (Z.max_r 0 lg), (Z.max_l 0 (- lg)) in Hlow by lia.
        change (2 ^ 0) with 1 in Hlow.
        assert (E : 2 * 2 ^ 52 = 2 * 2 ^ (- (lg - 52)) * 2 ^ lg).
        { rewrite <- Z.mul_assoc, <- pow2_split by lia. do 2 f_equal. lia. }
        assert (0 < 2 ^ lg) by (apply Z.pow_pos_nonneg; lia).
        nia.
      + rewrite (Z.max_l 0 lg), (Z.max_r 0 (- lg)) in Hlow by lia.
        change (2 ^ 0) with 1 in Hlow.
        assert (E : 2 ^ (- (lg - 52)) = 2 ^ 52 * 2 ^ (- lg)).
        { rewrite <- pow2_split by lia. f_equal. lia. }
        assert (0 < 2 ^ (- lg)) by (apply Z.pow_pos_nonneg; lia).
        nia. }
  pose proof (Z.div_mod (n * E) q ltac:(lia)) as Hm0.
  pose proof (Z.mod_pos_bound (n * E) q Hq) as Hr.
  pose proof (Z.div_mod n q ltac:(lia)) as Hi.
  pose proof (Z.mod_pos_bound n q Hq) as Hr'.
  set (m0 := n * E / q) in *. set (r := (n * E) mod q) in *.
  set (m := if 2 * r <? q then m0
            else if q <? 2 * r then m0 + 1
            else if Z.even m0 then m0 else m0 + 1).
  assert (Hm : m = m0 \/ (m = m0 + 1 /\ q <= 2 * r)).
  { subst m. destruct (Z.ltb_spec (2 * r) q); [by left|].
    destruct (q <? 2 * r); [right; lia|].
    destruct (Z.even m0); [by left|right; lia]. }
  pose proof (round_step_bounds n q E m0 r (n / q) (n mod q) m
                Hq HE HqE Hm0 Hr Hi Hr' Hm) as Hb.
  assert (Hi0 : 0 <= n / q) by (apply Z.div_pos; lia).
  assert (Hi1 : n / q <= n) by (apply Z.div_le_upper_bound; nia).
  assert (Hover : Z.log2 m + e < 1024).
  { destruct (Z.eq_dec m 0) as [->|Hm0']; [simpl; lia|].
    assert (Z.log2 m < 52 - e); [|lia].
    apply Z.log2_lt_pow2; [nia|].
    replace (52 - e) with (52 + - e) by lia. rewrite pow2_split by lia.
    fold E. nia. }
  destruct (Z.leb_spec 1024 (Z.log2 m + e)); [lia|].
  unfold to_int. destruct (Z.leb_spec 0 e); [lia|].
  f_equal. fold E. symmetry.
  apply (Z.div_unique m E (n / q) (m - E * (n / q))); nia.
Qed.

End RoundFacts.

(** ** Decimal tokens *)

Module DecimalFacts.
Import PyStr PyFloat PyStrFacts RoundFacts.

Lemma digit_val_bound c : is_digit c = true -> 0 <= digit_val c <= 9.
Proof. destruct c as [[] [] [] [] [] [] [] []]; try discriminate; vm_compute; split; discriminate. Qed.

Lemma digits_value_app s t : forall acc,
  digits_value acc (s +:+ t) = digits_value (digits_value acc s) t.
Proof. induction s as [|c s IH]; intros acc; simpl; [done|]. apply IH. Qed.

(** The value of a string of digits, read after [acc]. *)
Lemma digits_value_shift t : forall acc,
  all_char is_digit t = true ->
  digits_value acc t = acc * 10 ^ Z.of_nat (String.length t) + digits_value 0 t
  /\ 0 <= digits_value 0 t < 10 ^ Z.of_nat (String.length t).
Proof.
  induction t as [|c t IH]; intros acc Ht.
  - simpl. change (10 ^ 0) with 1. lia.
  - simpl in Ht. apply andb_true_iff in Ht as [Hc Ht].
    pose proof (digit_val_bound c Hc) as Hv.
    cbn [digits_value String.length].
    destruct (IH (10 * acc + digit_val c) Ht) as [-> Hb].
    destruct (IH (10 * 0 + digit_val c) Ht) as [-> _].
    rewrite Nat2Z.inj_succ, Z.pow_succ_r by lia.
    assert (0 < 10 ^ Z.of_nat (String.length t)) by (apply Z.pow_pos_nonneg; lia).
    nia.
Qed.

(** What [span_digits] leaves does not start with a digit. *)
Lemma span_digits_rest s :
  match (span_digits s).2 with
  | String c _ => is_digit c = false
  | EmptyString => True
  end.
Proof.
  induction s as [|c s IH]; simpl; [done|].
  destruct (is_digit c) eqn:E; [|done].
  by destruct (span_digits s) as [d r].
Qed.

Lemma span_digits_app d r :
  all_char is_digit d = true ->
  match r with String c _ => is_digit c = false | EmptyString => True end ->
  span_digits (d +:+ r) = (d, r).
Proof.
  intros Hd Hr. induction d as [|c d IH]; simpl.
  - destruct r as [|c r]; [done|]. simpl. by rewrite Hr.
  - simpl in Hd. apply andb_true_iff in Hd as [-> Hd]. by rewrite (IH Hd).
Qed.

Lemma span_digits_all d :
  all_char is_digit d = true -> span_digits d = (d, EmptyString).
Proof.
  intros Hd. induction d as [|c d IH]; simpl; [done|].
  simpl in Hd. apply andb_true_iff in Hd as [-> Hd]. by rewrite (IH Hd).
Qed.

Lemma append_cons c s t : String c s +:+ t = String c (s +:+ t).
Proof. reflexivity. Qed.

Lemma append_empty_l t : "" +:+ t = t.
Proof. reflexivity. Qed.

Lemma append_empty_r s : s +:+ "" = s.
Proof. induction s as [|c s IH]; [done|]. by rewrite append_cons, IH. Qed.

Lemma length_append s t :
  String.length (s +:+ t) = (String.length s + String.length t)%nat.
Proof.
  induction s as [|c s IH]; [done|].
  rewrite append_cons. simpl. by rewrite IH.
Qed.

(** A token is an integer part, and possibly a point and a fraction. *)
Lemma first_decimal_shape s tok :
  first_decimal s = Some tok ->
  exists c ip fp frac,
    is_digit c = true
    /\ all_char is_digit ip = true /\ all_char is_digit fp = true
    /\ ((frac = EmptyString /\ fp = EmptyString) \/ frac = "." +:+ fp)
    /\ tok = String c ip +:+ frac.
Proof.
  induction s as [|c s IH]; [done|].
  cbn [first_decimal]. destruct (is_digit c) eqn:E; [|exact IH].
  pose proof (span_digits_all_digits (String c s)) as Hip.
  pose proof (span_digits_rest (String c s)) as Hr.
  simpl in Hip, Hr |- *. rewrite E in Hip, Hr |- *.
  destruct (span_digits s) as [ip r]. simpl in Hip, Hr.
  apply andb_true_iff in Hip as [_ Hip].
  assert (Hplain : exists c0 ip0 fp frac,
            is_digit c0 = true
            /\ all_char is_digit ip0 = true /\ all_char is_digit fp = true
            /\ ((frac = EmptyString /\ fp = EmptyString) \/ frac = "." +:+ fp)
            /\ String c ip = String c0 ip0 +:+ frac).
  { exists c, ip, EmptyString, EmptyString. repeat split; try done; [by left|].
    simpl. by rewrite append_empty_r. }
  destruct r as [|c' r']; [by intros [= <-]|].
  destruct (Ascii.eqb_spec c' ".") as [->|Hne].
  - intros [= <-]. exists c, ip, (span_digits r').1, ("." +:+ (span_digits r').1).
    repeat split; try done; [apply span_digits_all_digits|by right].
  - destruct c' as [[] [] [] [] [] [] [] []]; by intros [= <-].
Qed.

Lemma lstrip_id c s : is_space c = false -> lstrip (String c s) = String c s.
Proof. intros H. simpl. by rewrite H. Qed.

Lemma rstrip_id s :
  all_char (fun c => negb (is_space c)) s = true -> rstrip s = s.
Proof.
  induction s as [|c s IH]; [done|]. cbn [all_char rstrip].
  intros H. apply andb_true_iff in H as [Hc Hs]. apply negb_true_iff in Hc.
  unfold all_space. rewrite lstrip_id by done. by rewrite IH.
Qed.

Lemma underscores_ok_id s : forall prev,
  Ascii.eqb prev "_" = false ->
  all_char (fun c => negb (Ascii.eqb c "_")) s = true ->
  underscores_ok prev s = true.
Proof.
  induction s as [|c s IH]; intros prev Hp; simpl; [by rewrite Hp|].
  intros H. apply andb_true_iff in H as [Hc Hs]. apply negb_true_iff in Hc.
  rewrite Hc, Hp. simpl. by apply IH.
Qed.

Lemma remove_underscores_id s :
  all_char (fun c => negb (Ascii.eqb c "_")) s = true ->
  remove_underscores s = s.
Proof.
  induction s as [|c s IH]; simpl; [done|].
  intros H. apply andb_true_iff in H as [Hc Hs]. apply negb_true_iff in Hc.
  by rewrite Hc, IH.
Qed.

(** [float] of a token: the nearest binary64 to its decimal value. *)
Lemma of_string_decimal c ip fp frac :
  is_digit c = true ->
  all_char is_digit ip = true -> all_char is_digit fp = true ->
  ((frac = EmptyString /\ fp = EmptyString) \/ frac = "." +:+ fp) ->
  of_string (String c ip +:+ frac)
  = Some (round64 false (digits_value 0 (String c ip +:+ fp))
            (10 ^ Z.of_nat (String.length fp))).
Proof.
  intros Hc Hip Hfp Hfrac.
  set (tok := String c ip +:+ frac).
  assert (Htok : all_char (fun c => is_digit c || Ascii.eqb c ".") tok = true).
  { subst tok. rewrite all_char_append. apply andb_true_iff. split.
    - simpl. rewrite Hc. simpl.
      eapply all_char_weaken; [|exact Hip]. by intros ? ->.
    - destruct Hfrac as [[-> _]| ->]; [done|]. simpl.
      eapply all_char_weaken; [|exact Hfp]. by intros ? ->. }
  assert (Hsp : all_char (fun c => negb (is_space c)) tok = true).
  { eapply all_char_weaken; [|exact Htok].
    intros x. by destruct x as [[] [] [] [] [] [] [] []]. }
  assert (Hus : all_char (fun c => negb (Ascii.eqb c "_")) tok = true).
  { eapply all_char_weaken; [|exact Htok].
    intros x. by destruct x as [[] [] [] [] [] [] [] []]. }
  unfold of_string, strip.
  assert (Hl : lstrip tok = tok).
  { subst tok. simpl. simpl in Hsp.
    apply andb_true_iff in Hsp as [Hs _]. apply negb_true_iff in Hs.
    by rewrite Hs. }
  rewrite Hl, (rstrip_id tok Hsp), (underscores_ok_id tok "000" eq_refl Hus),
    (remove_underscores_id tok Hus).
  assert (Hpu : parse_unsigned false tok
                = Some (round64 false (digits_value 0 (String c ip +:+ fp))
                          (10 ^ Z.of_nat (String.length fp)))).
  { unfold parse_unsigned.
    assert (Hlow : forall t, String.eqb (lower tok) t
                             = String.eqb (String c (lower (ip +:+ frac))) t).
    { intros t. subst tok. simpl. f_equal.
      clear -Hc. by destruct c as [[] [] [] [] [] [] [] []]. }
    rewrite !Hlow.
    assert (Hne : forall x t, is_digit x = false ->
              String.eqb (String c (lower (ip +:+ frac))) (String x t) = false).
    { intros x t Hx. simpl. destruct (Ascii.eqb_spec c x) as [->|]; [congruence|done]. }
    rewrite !Hne by done. simpl orb. cbv iota.
    assert (Hspan : span_digits tok = (String c ip, frac)).
    { subst tok. apply span_digits_app.
      - simpl. by rewrite Hc.
      - destruct Hfrac as [[-> _]| ->]; done. }
    rewrite Hspan.
    assert (Hf : (match frac with
                  | String "." r => span_digits r
                  | _ => (EmptyString, frac)
                  end) = (fp, EmptyString)).
    { destruct Hfrac as [[-> ->]| ->]; [done|]. simpl. by apply span_digits_all. }
    rewrite Hf. cbn [String.append]. cbn [parse_exponent].
    replace (0 - Z.of_nat (String.length fp)) with (- Z.of_nat (String.length fp)) by lia.
    rewrite (Z.max_l 0 (- Z.of_nat _)) by lia.
    rewrite Z.opp_involutive, (Z.max_r 0 (Z.of_nat _)) by lia.
    change (10 ^ 0) with 1. by rewrite Z.mul_1_r. }
  subst tok. cbn [String.append] in Hpu |- *.
  clear -Hc Hpu. by destruct c as [[] [] [] [] [] [] [] []].
Qed.

(** [int(float(token))] of a token of at most 15 digits is its integer
    part. *)
Lemma to_int_decimal c ip fp :
  is_digit c = true ->
  all_char is_digit ip = true -> all_char is_digit fp = true ->
  (String.length (String c ip) + String.length fp <= 15)%nat ->
  to_int (round64 false (digits_value 0 (String c ip +:+ fp))
            (10 ^ Z.of_nat (String.length fp)))
  = Some (digits_value 0 (String c ip)).
Proof.
  intros Hc Hip Hfp Hlen.
  assert (Hcip : all_char is_digit (String c ip) = true) by (simpl; by rewrite Hc).
  rewrite digits_value_app.
  destruct (digits_value_shift fp (digits_value 0 (String c ip)) Hfp) as [-> Hf].
  destruct (digits_value_shift (String c ip) 0 Hcip) as [_ Hi].
  set (i := digits_value 0 (String c ip)) in *.
  set (f := digits_value 0 fp) in *.
  set (k := Z.of_nat (String.length fp)) in *.
  set (j := Z.of_nat (String.length (String c ip))) in *.
  assert (Hk : 0 < 10 ^ k) by (apply Z.pow_pos_nonneg; lia).
  assert (Hjk : 10 ^ j * 10 ^ k <= 10 ^ 15).
  { rewrite <- Z.pow_add_r by lia. apply Z.pow_le_mono_r; lia. }
  assert (Hk15 : 10 ^ k <= 10 ^ 15) by (apply Z.pow_le_mono_r; lia).
  assert (H15 : 10 ^ 15 < 2 ^ 52) by reflexivity.
  rewrite round64_trunc; [|nia|lia].
  f_equal. symmetry. apply (Z.div_unique _ _ i f); lia.
Qed.

End DecimalFacts.

(** C8, at inputs where it fails: a point that separates thousands is
    read as a decimal point, and a fraction of twenty nines is rounded up
    by the conversion to a float. *)
Lemma normalize_price_thousands_and_rounding :
  Normalizers.normalize_price (PyVal.VStr "1.299 kr") = 1
  /\ Normalizers.normalize_price (PyVal.VStr "1.299,00 kr") = 1
  /\ Normalizers.normalize_price (PyVal.VStr "0,99999999999999999999") = 1.
Proof. repeat split; vm_compute; reflexivity. Qed.

(** C8, amended. [normalize_price] deletes the spaces and the lower-case
    markers [kr] and [dkk], turns every comma into a point, and takes the
    first token made of digits, an optional point and digits; a point is
    always a decimal point, never a separator of thousands. The result is
    the token converted to a float and truncated: for a token of at most
    15 characters it is exactly the integer part of the token, without
    rounding up; it is 0 when there is no token or the value is absent or
    empty. [normalize_price("199,50") = 199],
    [normalize_price("299 kr") = 299], and the result is 0 or more for
    every value. *)
Theorem normalize_price_truncates :
  Normalizers.normalize_price (PyVal.VStr "199,50") = 199
  /\ Normalizers.normalize_price (PyVal.VStr "299 kr") = 299
  /\ (forall v, 0 <= Normalizers.normalize_price v)
  /\ (forall v tok,
        PyVal.truthy v = true ->
        PyStr.first_decimal (Normalizers.price_text v) = Some tok ->
        (String.length tok <= 15)%nat ->
        Normalizers.normalize_price v
        = PyStr.digits_value 0 (PyStr.span_digits tok).1)
  /\ (forall v,
        PyVal.truthy v = false
        \/ PyStr.first_decimal (Normalizers.price_text v) = None ->
        Normalizers.normalize_price v = 0).
Proof.
  split; [vm_compute; reflexivity|]. split; [vm_compute; reflexivity|].
  split; [|split].
  - intros v. unfold Normalizers.normalize_price.
    destruct (PyVal.truthy v); cbn [negb]; [|lia].
    apply NormalizerFacts.first_return_nonneg; [|lia].
    apply Forall_cons_2; [|apply Forall_nil_2]. intros z.
    destruct (PyStr.first_decimal _) as [tok|] eqn:Et; [|done]. simpl.
    destruct (PyFloat.of_string tok) as [x|] eqn:Ex; [|done]. simpl.
    apply PyFloatFacts.to_int_nonneg.
    eapply PyFloatFacts.of_string_nonneg; [|exact Ex].
    eapply NormalizerFacts.first_decimal_has_minus, Et.
  - intros v tok Hv Htok Hlen. unfold Normalizers.normalize_price.
    rewrite Hv, Htok. cbn [negb].
    destruct (DecimalFacts.first_decimal_shape _ _ Htok)
      as (c & ip & fp & frac & Hc & Hip & Hfp & Hfrac & ->).
    assert (Hspan : PyStr.span_digits (String c ip +:+ frac) = (String c ip, frac)).
    { apply DecimalFacts.span_digits_app.
      - simpl. by rewrite Hc.
      - destruct Hfrac as [[-> _]| ->]; done. }
    rewrite Hspan. cbn [fst].
    assert (Hl : (String.length (String c ip) + String.length fp <= 15)%nat).
    { destruct Hfrac as [[-> ->]| ->].
      - rewrite DecimalFacts.append_empty_r in Hlen. simpl in *. lia.
      - rewrite !DecimalFacts.length_append in Hlen. simpl in *. lia. }
    unfold Normalizers.first_return. cbn [foldr].
    change (Some (String c ip +:+ frac) ≫= _)
      with (PyFloat.of_string (String c ip +:+ frac) ≫= PyFloat.to_int).
    rewrite (DecimalFacts.of_string_decimal c ip fp frac Hc Hip Hfp Hfrac).
    change (Some ?x ≫= PyFloat.to_int) with (PyFloat.to_int x).
    by rewrite (DecimalFacts.to_int_decimal c ip fp Hc Hip Hfp Hl).
  - intros v [Hv|Htok]; unfold Normalizers.normalize_price.
    + by rewrite Hv.
    + destruct (PyVal.truthy v); [|done]. by rewrite Htok.
Qed.

(** C8, amended, on a price with a fraction and on a text without
    digits. *)
Lemma normalize_price_truncates_witness :
  Normalizers.normalize_price (PyVal.VStr "1499,95 kr") = 1499
  /\ Normalizers.normalize_price (PyVal.VStr "gratis") = 0.
Proof.
  destruct normalize_price_truncates as (_ & _ & _ & Htrunc & Hzero).
  split.
  - apply (Htrunc (PyVal.VStr "1499,95 kr") "1499.95"); [reflexivity|reflexivity|].
    apply Nat.leb_le. reflexivity.
  - apply (Hzero (PyVal.VStr "gratis")). right. reflexivity.
Defined.

(** ** Checks of the embedding *)

Module ChecksFacts.
Import PyStr PyFloat PyVal Normalizers Checks.

(** The normalisers give what the repository's tests expect. *)
Example test_data_validation :
  passes normalize_speed speed_cases = true
  /\ passes normalize_price price_cases = true
  /\ passes normalize_contract_length contract_cases = true.
Proof. repeat split; vm_compute; reflexivity. Qed.

(** The float of the model is the binary64 of the Standard Library:
    same significands and exponents, same overflow to infinity, same
    gradual underflow. *)
Example float_agrees_with_spec :
  times_1000 "0.1"
  = Some (S754_finite false 7036874417766400 (-46),
          S754_finite false 7036874417766400 (-46))
  /\ times_1000 "1.0005"
     = Some (S754_finite false 8800491068719104 (-43),
             S754_finite false 8800491068719104 (-43))
  /\ times_1000 "1e306" = Some (S754_infinity false, S754_infinity false)
  /\ times_1000 "-4.35e-322"
     = Some (S754_finite true 88000 (-1074), S754_finite true 88000 (-1074)).
Proof. repeat split; vm_compute; reflexivity. Qed.

(** What [float] accepts and what [int] makes of it. *)
Example float_literals :
  (of_string " 12 " ≫= to_int) = Some 12
  /\ (of_string "1_0" ≫= to_int) = Some 10
  /\ (of_string "1e3" ≫= to_int) = Some 1000
  /\ (of_string ".5" ≫= to_int) = Some 0
  /\ of_string "1__0" = None
  /\ of_string "1e" = None
  /\ of_string "0x10" = None
  /\ of_string "-Infinity" = Some (FInf true)
  /\ of_string "NaN" = Some FNaN
  /\ of_string "1e400" = Some (FInf false)
  /\ of_string "4.9e-324" = Some (FFin false 1 (-1074))
  /\ (of_string "9007199254740993" ≫= to_int) = Some 9007199254740992.
Proof. repeat split; vm_compute; reflexivity. Qed.

End ChecksFacts.

(** * More properties of the code *)

(** ** Change detection: counts as sets of keys *)

Module KeySetFacts.
Import PyVal PyDict ChangeDetector KeySets PyDictFacts.

Lemma mem_true_iff {V} k (d : odict V) : mem k d = true <-> k ∈ d.*1.
Proof.
  unfold mem. induction d as [|[k' v'] d IH]; simpl.
  - split; [done|]. intros H. by apply elem_of_nil in H.
  - destruct (String.eqb_spec k k') as [->|Hne].
    + split; [intros _; by left|done].
    + rewrite IH. split; [by right|].
      intros H. apply elem_of_cons in H as [?|?]; done.
Qed.

Lemma elem_of_set_keys {V} k k' (v : V) (d : odict V) :
  k' ∈ (set k v d).*1 <-> k' = k \/ k' ∈ d.*1.
Proof.
  induction d as [|[k0 v0] d IH]; simpl.
  - rewrite list_elem_of_singleton. split; [by left|].
    intros [?|H]; [done|]. by apply elem_of_nil in H.
  - destruct (String.eqb_spec k k0) as [->|Hne]; simpl.
    + rewrite !elem_of_cons. tauto.
    + rewrite !elem_of_cons, IH. tauto.
Qed.

Lemma elem_of_comprehension_keys {V} (key : V -> string) xs k :
  k ∈ (comprehension key xs).*1 <-> k ∈ key <$> xs.
Proof.
  unfold comprehension.
  assert (H : forall d, k ∈ (foldl (fun d x => set (key x) x d) d xs).*1
                        <-> k ∈ d.*1 \/ k ∈ key <$> xs).
  { induction xs as [|x xs IH]; intros d; simpl.
    - split; [by left|]. intros [?|H]; [done|]. by apply elem_of_nil in H.
    - rewrite IH, elem_of_set_keys, elem_of_cons. tauto. }
  rewrite H. simpl. split; [|by right].
  intros [H'|?]; [|done]. by apply elem_of_nil in H'.
Qed.

(** The lookup table has one entry for each key of the snapshot. *)
Lemma comprehension_key_set field data :
  list_to_set (comprehension (lookup_key field) data).*1 = key_set field data.
Proof.
  unfold key_set. apply set_eq. intros k.
  by rewrite !elem_of_list_to_set, elem_of_comprehension_keys.
Qed.

Lemma length_comprehension field data :
  length (comprehension (lookup_key field) data) = size (key_set field data).
Proof.
  rewrite <- comprehension_key_set, size_list_to_set
    by apply comprehension_keys_nodup.
  by rewrite length_fmap.
Qed.

(** The entries of [items] whose key is not in [d], counted as a set. *)
Lemma missing_from_size (d items : odict record) :
  NoDup items.*1 ->
  missing_from d items
  = Z.of_nat (size (list_to_set items.*1 ∖ list_to_set d.*1 : gset string)).
Proof.
  intros Hnd. unfold missing_from. f_equal.
  rewrite <- (length_fmap fst).
  assert (Hf : NoDup (filter (fun it : string * record => mem it.1 d = false) items).*1).
  { clear -Hnd. induction items as [|it items IH]; simpl; [constructor|].
    apply NoDup_cons in Hnd as [Hin Hnd]. rewrite filter_cons.
    destruct (decide _); simpl; [|auto].
    apply NoDup_cons. split; [|auto]. intros H. apply Hin.
    apply list_elem_of_fmap in H as (y & Hy1 & Hy2).
    apply list_elem_of_filter in Hy2 as [_ Hy2].
    apply list_elem_of_fmap. eauto. }
  rewrite <- (size_list_to_set (C := gset string)) by done.
  f_equal. apply set_eq. intros k.
  rewrite elem_of_list_to_set, elem_of_difference, !elem_of_list_to_set.
  rewrite !list_elem_of_fmap. split.
  - intros ([k' v] & -> & H). apply list_elem_of_filter in H as [Hm Hin].
    split; [by exists (k', v)|]. simpl in *.
    intros Hd. apply list_elem_of_fmap, mem_true_iff in Hd. congruence.
  - intros [([k' v] & -> & Hin) Hnot]. exists (k', v). split; [done|].
    apply list_elem_of_filter. split; [|done]. simpl in *.
    destruct (mem k' d) eqn:E; [|done].
    exfalso. apply Hnot. apply mem_true_iff in E.
    by apply list_elem_of_fmap in E.
Qed.

Lemma new_packages_size field old_data new_data :
  new_packages (detect_changes_on field old_data new_data)
  = Z.of_nat (size (key_set field new_data ∖ key_set field old_data)).
Proof.
  rewrite ChangeDetectorFacts.new_packages_count,
    missing_from_size by apply comprehension_keys_nodup.
  by rewrite !comprehension_key_set.
Qed.

Lemma removed_packages_size field old_data new_data :
  removed_packages (detect_changes_on field old_data new_data)
  = Z.of_nat (size (key_set field old_data ∖ key_set field new_data)).
Proof.
  rewrite ChangeDetectorFacts.removed_packages_count,
    missing_from_size by apply comprehension_keys_nodup.
  by rewrite !comprehension_key_set.
Qed.

Lemma size_key_set_le field data :
  (size (key_set field data) <= length data)%nat.
Proof.
  rewrite <- length_comprehension. unfold comprehension.
  assert (H : forall d : odict record,
            (length (foldl (fun d x => set (lookup_key field x) x d) d data)
             <= length d + length data)%nat).
  { induction data as [|x xs IH]; intros d; simpl; [lia|].
    etransitivity; [apply IH|].
    assert (length (set (lookup_key field x) x d) <= S (length d))%nat; [|lia].
    clear. induction d as [|[k v] d IH]; simpl; [lia|].
    destruct (String.eqb _ _); simpl; lia. }
  specialize (H []). simpl in H. lia.
Qed.

End KeySetFacts.

(** X1. For every pair of snapshots, [new_packages] is the number of
    distinct keys of the new snapshot that are not keys of the old one,
    and [removed_packages] the number of distinct keys of the old snapshot
    that are not keys of the new one: records that share a key within a
    snapshot count once. *)
Theorem new_and_removed_are_key_set_differences
    (field : string) (old_data new_data : list PyVal.record) :
  let ch := ChangeDetector.detect_changes_on field old_data new_data in
  ChangeDetector.new_packages ch
  = Z.of_nat (size (KeySets.key_set field new_data ∖ KeySets.key_set field old_data))
  /\ ChangeDetector.removed_packages ch
     = Z.of_nat (size (KeySets.key_set field old_data ∖ KeySets.key_set field new_data)).
Proof.
  split; [apply KeySetFacts.new_packages_size|apply KeySetFacts.removed_packages_size].
Qed.

(** X2. The additions and removals balance the sizes of the snapshots:
    [new_packages - removed_packages] is the number of distinct keys of
    the new snapshot minus that of the old one, and neither count exceeds
    the number of records of its snapshot. *)
Theorem new_minus_removed_is_growth
    (field : string) (old_data new_data : list PyVal.record) :
  let ch := ChangeDetector.detect_changes_on field old_data new_data in
  ChangeDetector.new_packages ch - ChangeDetector.removed_packages ch
  = Z.of_nat (size (KeySets.key_set field new_data))
    - Z.of_nat (size (KeySets.key_set field old_data))
  /\ 0 <= ChangeDetector.new_packages ch <= Z.of_nat (length new_data)
  /\ 0 <= ChangeDetector.removed_packages ch <= Z.of_nat (length old_data).
Proof.
  cbv zeta.
  rewrite KeySetFacts.new_packages_size, KeySetFacts.removed_packages_size.
  set (N := KeySets.key_set field new_data).
  set (O := KeySets.key_set field old_data).
  pose proof (size_union_alt N O) as H1.
  pose proof (size_union_alt O N) as H2.
  assert (E : size (N ∪ O) = size (O ∪ N)) by (by rewrite (comm_L (∪) N O)).
  assert (Hn : N ∖ O ⊆ N) by apply subseteq_difference_l, reflexivity.
  assert (Ho : O ∖ N ⊆ O) by apply subseteq_difference_l, reflexivity.
  apply subseteq_size in Hn, Ho.
  pose proof (KeySetFacts.size_key_set_le field new_data) as Ln.
  pose proof (KeySetFacts.size_key_set_le field old_data) as Lo.
  fold N in Ln. fold O in Lo. lia.
Qed.

(** ** The text of an integer *)

Module PrettyFacts.
Import PyStr DecimalFacts.

Lemma append_assoc (a b c : string) : (a +:+ b) +:+ c = a +:+ (b +:+ c).
Proof.
  induction a as [|x a IH]; [done|]. by rewrite !append_cons, IH.
Qed.

Lemma pretty_N_char_digit (x : N) :
  (x < 10)%N ->
  is_digit (pretty_N_char x) = true /\ digit_val (pretty_N_char x) = Z.of_N x.
Proof.
  intros H.
  destruct x as [|p]; [done|].
  do 4 (destruct p as [p|p|]; try done); lia.
Qed.

(** The digits of [x] put before a string of digits. *)
Lemma pretty_N_go_digits (x : N) : forall s,
  all_char is_digit s = true ->
  all_char is_digit (pretty_N_go x s) = true
  /\ digits_value 0 (pretty_N_go x s)
     = Z.of_N x * 10 ^ Z.of_nat (String.length s) + digits_value 0 s.
Proof.
  induction (N.lt_wf_0 x) as [x _ IH]. intros s Hs.
  destruct (N.eq_dec x 0%N) as [->|Hx].
  - rewrite pretty_N_go_0. split; [done|]. lia.
  - rewrite pretty_N_go_step by lia.
    assert (Hm : (x `mod` 10 < 10)%N) by (apply N.mod_lt; lia).
    destruct (pretty_N_char_digit _ Hm) as [Hd Hv].
    destruct (IH (x `div` 10)%N ltac:(apply N.div_lt; lia)
                (String (pretty_N_char (x `mod` 10)) s)) as [H1 H2].
    { simpl. by rewrite Hd, Hs. }
    split; [done|]. rewrite H2.
    destruct (digits_value_shift s (10 * 0 + digit_val (pretty_N_char (x `mod` 10))) Hs)
      as [E _].
    cbn [digits_value String.length]. rewrite E, Hv.
    rewrite Nat2Z.inj_succ, Z.pow_succ_r by lia.
        rewrite N2Z.inj_div. rewrite N2Z.inj_mod.
    pose proof (Z.div_mod (Z.of_N x) 10 ltac:(lia)) as Hz.
    change (Z.of_N 10) with 10. nia.
Qed.

(** The text of an integer of 0 or more: digits, not empty, that denote
    the integer. *)
Lemma pretty_nonneg (z : Z) :
  0 <= z ->
  exists c ds,
    pretty z = String c ds
    /\ is_digit c = true /\ all_char is_digit ds = true
    /\ digits_value 0 (pretty z) = z.
Proof.
  intros Hz. destruct z as [|p|p]; [|clear Hz|lia].
  - exists "0"%char, EmptyString. done.
  - change (pretty (Z.pos p)) with (pretty_N_go (N.pos p) "").
    destruct (pretty_N_go_digits (N.pos p) "" eq_refl) as [Hd Hv].
    simpl in Hv. rewrite Z.mul_1_r, Z.add_0_r in Hv.
    destruct (pretty_N_go (N.pos p) "") as [|c ds] eqn:E.
    + simpl in Hv. lia.
    + simpl in Hd. apply andb_true_iff in Hd as [Hc Hds].
      exists c, ds. done.
Qed.

Lemma pretty_nonneg_digits (z : Z) :
  0 <= z -> all_char is_digit (pretty z) = true.
Proof.
  intros Hz. destruct (pretty_nonneg z Hz) as (c & ds & -> & Hc & Hds & _).
  simpl. by rewrite Hc, Hds.
Qed.

(** The text of a negative integer is a minus sign and the text of its
    absolute value. *)
Lemma pretty_neg (z : Z) : z < 0 -> pretty z = "-" +:+ pretty (- z).
Proof. intros Hz. destruct z; try lia. reflexivity. Qed.

End PrettyFacts.

(** ** Change detection: what the counters count *)

Module SharedFacts.
Import PyStr PyVal PyDict ChangeDetector KeySets Shared.
Import PyDictFacts KeySetFacts PyStrFacts DecimalFacts PrettyFacts.

Lemma count_cons {A} (P : A -> bool) x l :
  count P (x :: l) = (if P x then 1 else 0) + count P l.
Proof.
  unfold count. rewrite filter_cons.
  destruct (P x) eqn:E.
  - rewrite decide_True by done. cbn [length]. lia.
  - rewrite decide_False by congruence. lia.
Qed.

Lemma count_zero {A} (P : A -> bool) l :
  (forall x, x ∈ l -> P x = false) -> count P l = 0.
Proof.
  induction l as [|x l IH]; intros H; [done|]. rewrite count_cons.
  rewrite (H x) by (by left). rewrite IH; [done|]. intros. apply H. by right.
Qed.

Lemma count_nonneg {A} (P : A -> bool) l : 0 <= count P l.
Proof. unfold count. lia. Qed.

Lemma count_le {A} (P Q : A -> bool) l :
  (forall x, P x = true -> Q x = true) -> count P l <= count Q l.
Proof.
  intros H. induction l as [|x l IH]; [done|]. rewrite !count_cons.
  destruct (P x) eqn:E; [rewrite (H x E); lia|destruct (Q x); lia].
Qed.

(** The third loop, counter by counter. [pairs] are the records it
    compares. *)
Lemma foldl_find_updated_counts old_lookup items : forall ch,
  let pairs :=
    omap (fun item : string * record =>
            (fun old_package => (old_package, item.2))
            <$> lookup item.1 old_lookup) items in
  let ch' := foldl (find_updated old_lookup) ch items in
  0 <= updated_packages ch ->
  new_packages ch' = new_packages ch
  /\ removed_packages ch' = removed_packages ch
  /\ price_changes ch' = price_changes ch + count price_differs pairs
  /\ promotion_changes ch' = promotion_changes ch + count promotion_differs pairs
  /\ updated_packages ch + count price_differs pairs <= updated_packages ch'
  /\ updated_packages ch'
     <= updated_packages ch
        + count (fun p => price_differs p || promotion_differs p) pairs
  /\ updated_packages ch'
     <= Z.max 1 (updated_packages ch) + count price_differs pairs
  /\ (updated_packages ch' = 0 <->
      updated_packages ch = 0
      /\ count (fun p => price_differs p || promotion_differs p) pairs = 0).
Proof.
  induction items as [|it items IH]; intros ch; cbv zeta.
  - intros H. simpl. unfold count. simpl. repeat split; try lia.
  - intros Hch. cbn [foldl omap list_omap].
    set (ch1 := find_updated old_lookup ch it).
    assert (Hstep :
      match lookup it.1 old_lookup with
      | None => ch1 = ch
      | Some o =>
          new_packages ch1 = new_packages ch
          /\ removed_packages ch1 = removed_packages ch
          /\ price_changes ch1
             = price_changes ch + (if price_differs (o, it.2) then 1 else 0)
          /\ promotion_changes ch1
             = promotion_changes ch + (if promotion_differs (o, it.2) then 1 else 0)
          /\ updated_packages ch1
             = updated_packages ch
               + (if price_differs (o, it.2) then 1
                  else if promotion_differs (o, it.2)
                       then (if updated_packages ch =? 0 then 1 else 0)
                       else 0)
      end).
    { subst ch1. unfold find_updated, price_differs, promotion_differs.
      destruct (lookup it.1 old_lookup) as [o|]; [|done]. simpl.
      destruct (negb (py_eq (get o "pris_mdr" VNone) (get it.2 "pris_mdr" VNone)));
        destruct (negb (py_eq (get o "kampagne" VNone) (get it.2 "kampagne" VNone)));
        simpl; repeat split; try lia.
      - destruct (Z.eqb_spec (updated_packages ch + 1) 0); lia.
      - destruct (updated_packages ch =? 0); lia. }
    clearbody ch1. specialize (IH ch1). cbv zeta in IH.
    destruct (lookup it.1 old_lookup) as [o|] eqn:El; simpl.
    + destruct Hstep as (H1 & H2 & H3 & H4 & H5).
      pose proof (count_nonneg price_differs
        (omap (fun item : string * record =>
                 (fun old_package => (old_package, item.2))
                 <$> lookup item.1 old_lookup) items)) as Hc1.
      pose proof (count_nonneg (fun p => price_differs p || promotion_differs p)
        (omap (fun item : string * record =>
                 (fun old_package => (old_package, item.2))
                 <$> lookup item.1 old_lookup) items)) as Hc2.
      rewrite !count_cons.
      destruct (price_differs (o, it.2)); destruct (promotion_differs (o, it.2));
        simpl orb; cbv iota;
        destruct (Z.eqb_spec (updated_packages ch) 0);
        (destruct IH as (I1 & I2 & I3 & I4 & I5 & I6 & I7 & I8); [lia|]);
        repeat split; try lia.
    + subst ch1. apply IH, Hch.
Qed.

(** Every entry of a lookup table is a record of the snapshot under its
    own key. *)
Lemma comprehension_entries {V} (key : V -> string) xs k v :
  (k, v) ∈ comprehension key xs -> k = key v /\ v ∈ xs.
Proof.
  unfold comprehension.
  assert (H : forall d : odict V,
            (forall k v, (k, v) ∈ d -> k = key v /\ v ∈ xs) ->
            forall ys, (forall y, y ∈ ys -> y ∈ xs) ->
            forall k v, (k, v) ∈ foldl (fun d x => set (key x) x d) d ys ->
                        k = key v /\ v ∈ xs).
  { intros d Hd ys. revert d Hd.
    induction ys as [|y ys IH]; intros d Hd Hys k0 v0; simpl; [apply Hd|].
    apply IH; [|intros; apply Hys; by right].
    clear -Hd Hys. intros k1 v1.
    induction d as [|[k' v'] d IHd]; simpl.
    - intros H. apply list_elem_of_singleton in H as [= -> ->].
      split; [done|apply Hys; by left].
    - destruct (String.eqb_spec (key y) k') as [E|Hne].
      + intros H. apply elem_of_cons in H as [[= -> ->]|H].
        * split; [done|apply Hys; by left].
        * apply Hd. by right.
      + intros H. apply elem_of_cons in H as [[= -> ->]|H].
        * apply Hd. by left.
        * apply IHd; [|done]. intros. apply Hd. by right. }
  apply (H [] ltac:(intros ? ? Hin; by apply elem_of_nil in Hin) xs); auto.
Qed.

Lemma shared_pairs_keys field old_data new_data o n :
  (o, n) ∈ shared_pairs field old_data new_data ->
  lookup_key field o = lookup_key field n /\ o ∈ old_data /\ n ∈ new_data.
Proof.
  unfold shared_pairs. intros H.
  apply list_elem_of_omap in H as ([k v] & Hin & Hl). simpl in Hl.
  destruct (lookup k _) as [o'|] eqn:E; simpl in Hl; [|done].
  injection Hl as -> ->.
  apply SymmetryFacts.lookup_Some_elem_of in E.
  apply comprehension_entries in E as [-> Ho].
  apply comprehension_entries in Hin as [E Hn]. done.
Qed.

Lemma last_segment_plain d : forall acc,
  has_minus d = false -> last_segment acc d = acc +:+ d.
Proof.
  unfold has_minus. induction d as [|c d IH]; intros acc.
  - intros _. cbn [last_segment]. by rewrite append_empty_r.
  - cbn [any_char last_segment]. intros H.
    apply orb_false_iff in H as [Hc Hd].
    destruct (Ascii.eqb_spec c "-") as [->|Hne]; [done|].
    rewrite IH by done. by rewrite append_assoc.
Qed.

Lemma last_segment_after_minus a d : forall acc,
  has_minus d = false -> last_segment acc (a +:+ "-" +:+ d) = d.
Proof.
  induction a as [|c a IH]; intros acc Hd.
  - rewrite append_empty_l, append_cons, append_empty_l.
    cbn [last_segment]. rewrite Ascii.eqb_refl.
    by rewrite last_segment_plain.
  - rewrite append_cons. cbn [last_segment].
    destruct (Ascii.eqb c "-"); by apply IH.
Qed.

Lemma all_digits_no_minus s : all_char is_digit s = true -> has_minus s = false.
Proof.
  apply all_char_not_any. intros c. by destruct c as [[] [] [] [] [] [] [] []].
Qed.

(** Two records with natural prices and the same key have the same
    price. *)
Lemma same_key_same_price field o n :
  price_is_natural o = true -> price_is_natural n = true ->
  lookup_key field o = lookup_key field n ->
  price_differs (o, n) = false.
Proof.
  unfold price_is_natural, price_differs, lookup_key, get. simpl.
  destruct (o !! "pris_mdr") as [[|po| |]|]; try done.
  destruct (n !! "pris_mdr") as [[|pn| |]|]; try done.
  simpl. intros Ho Hn Hk.
  apply Z.leb_le in Ho, Hn.
  apply (f_equal (last_segment "")) in Hk.
  rewrite <- !(append_assoc _ "-" (_ +:+ _)), <- !(append_assoc _ _ ("-" +:+ _)) in Hk.
  rewrite !last_segment_after_minus in Hk
    by (apply all_digits_no_minus, pretty_nonneg_digits; lia).
  apply (inj pretty) in Hk. subst pn.
  unfold py_eq. by rewrite bool_decide_eq_true_2.
Qed.

End SharedFacts.

(** X3. [price_changes] and [promotion_changes] are the numbers of
    records of the new snapshot whose key is in the old one and whose
    price, respectively promotion, differs from the old record's. The
    updated count is at least the number of price changes and at most the
    number of records with a change, and it is 0 exactly when no record
    changed: a changed record is never counted twice and never makes the
    change set look empty. *)
Theorem updated_counts_bounds
    (field : string) (old_data new_data : list PyVal.record) :
  let ch := ChangeDetector.detect_changes_on field old_data new_data in
  let pairs := Shared.shared_pairs field old_data new_data in
  ChangeDetector.price_changes ch = Shared.count Shared.price_differs pairs
  /\ ChangeDetector.promotion_changes ch
     = Shared.count Shared.promotion_differs pairs
  /\ Shared.count Shared.price_differs pairs <= ChangeDetector.updated_packages ch
  /\ ChangeDetector.updated_packages ch
     <= Shared.count
          (fun p => Shared.price_differs p || Shared.promotion_differs p) pairs
  /\ ChangeDetector.updated_packages ch
     <= Shared.count Shared.price_differs pairs + 1
  /\ (ChangeDetector.updated_packages ch = 0 <->
      Shared.count
        (fun p => Shared.price_differs p || Shared.promotion_differs p) pairs = 0).
Proof.
  cbv zeta. unfold ChangeDetector.detect_changes_on, Shared.shared_pairs.
  rewrite ChangeDetectorFacts.foldl_find_removed, ChangeDetectorFacts.foldl_find_new.
  cbn [ChangeDetector.new_packages ChangeDetector.updated_packages
       ChangeDetector.removed_packages ChangeDetector.price_changes
       ChangeDetector.promotion_changes].
  match goal with
  | |- context [foldl (ChangeDetector.find_updated ?L) ?c ?items] =>
      pose proof (SharedFacts.foldl_find_updated_counts L items c) as H
  end.
  cbv zeta in H.
  cbn [ChangeDetector.new_packages ChangeDetector.updated_packages
       ChangeDetector.removed_packages ChangeDetector.price_changes
       ChangeDetector.promotion_changes] in H.
  destruct H as (_ & _ & H3 & H4 & H5 & H6 & H7 & H8); [lia|].
  repeat split; lia.
Qed.

(** X4. When every record of the two snapshots holds a price that is an
    integer of 0 or more, [price_changes] is 0 and the updated count is 0
    or 1: two records with the same key have the same price, because the
    key ends with the price. *)
Theorem natural_prices_never_change
    (field : string) (old_data new_data : list PyVal.record) :
  Forall (fun pkg => KeySets.price_is_natural pkg = true) old_data ->
  Forall (fun pkg => KeySets.price_is_natural pkg = true) new_data ->
  let ch := ChangeDetector.detect_changes_on field old_data new_data in
  ChangeDetector.price_changes ch = 0
  /\ 0 <= ChangeDetector.updated_packages ch <= 1.
Proof.
  intros Ho Hn ch.
  assert (Hp : Shared.count Shared.price_differs
                 (Shared.shared_pairs field old_data new_data) = 0).
  { apply SharedFacts.count_zero. intros [o n] Hin.
    apply SharedFacts.shared_pairs_keys in Hin as (Hk & Hio & Hin).
    rewrite Forall_forall in Ho, Hn.
    apply (SharedFacts.same_key_same_price field); auto. }
  subst ch. unfold ChangeDetector.detect_changes_on.
  rewrite ChangeDetectorFacts.foldl_find_removed, ChangeDetectorFacts.foldl_find_new.
  cbn [ChangeDetector.new_packages ChangeDetector.updated_packages
       ChangeDetector.removed_packages ChangeDetector.price_changes
       ChangeDetector.promotion_changes].
  match goal with
  | |- context [foldl (ChangeDetector.find_updated ?L) ?c ?items] =>
      pose proof (SharedFacts.foldl_find_updated_counts L items c) as H
  end.
  cbv zeta in H.
  cbn [ChangeDetector.new_packages ChangeDetector.updated_packages
       ChangeDetector.removed_packages ChangeDetector.price_changes
       ChangeDetector.promotion_changes] in H.
  destruct H as (_ & _ & H3 & _ & H5 & _ & H7 & _); [lia|].
  unfold Shared.shared_pairs in Hp. rewrite Hp in H3, H5, H7. lia.
Qed.

(** X4 on two snapshots of three and two packages. *)
Lemma natural_prices_never_change_witness :
  let old_data := [Samples.package "X" "Basis" 199 ""; Samples.package "X" "Sport" 399 "";
                   Samples.package "Y" "Film" 249 "Gratis"] in
  let new_data := [Samples.package "X" "Basis" 199 "Halv pris"; Samples.package "X" "Sport" 399 "Gratis"] in
  let ch := ChangeDetector.detect_changes_on "pakke_navn" old_data new_data in
  ChangeDetector.price_changes ch = 0
  /\ 0 <= ChangeDetector.updated_packages ch <= 1.
Proof.
  intros old_data new_data.
  apply (natural_prices_never_change "pakke_navn" old_data new_data);
    repeat constructor.
Defined.

(** ** Change detection: empty snapshots and fields that are not read *)

Module ReadFieldsFacts.
Import PyVal PyDict ChangeDetector KeySets PyDictFacts KeySetFacts.

Lemma foldl_find_updated_nil items : forall ch,
  foldl (find_updated []) ch items = ch.
Proof. induction items as [|it items IH]; intros ch; simpl; [done|]. apply IH. Qed.

Lemma missing_from_nil (items : odict record) :
  missing_from [] items = Z.of_nat (length items).
Proof.
  unfold missing_from. f_equal. f_equal.
  induction items as [|it items IH]; [done|].
  rewrite filter_cons. simpl. by rewrite IH.
Qed.

(** Entries with the same keys and records with the same read fields. *)
Definition related (field : string) (it it' : string * record) : Prop :=
  it.1 = it'.1 /\ same_read_fields field it.2 it'.2.

Lemma same_read_fields_key field a b :
  same_read_fields field a b -> lookup_key field a = lookup_key field b.
Proof. intros (H1 & H2 & H3 & _). unfold lookup_key, get. by rewrite H1, H2, H3. Qed.

Lemma set_related field k v v' d d' :
  same_read_fields field v v' -> Forall2 (related field) d d' ->
  Forall2 (related field) (set k v d) (set k v' d').
Proof.
  intros Hv Hd. induction Hd as [|[k0 w] [k0' w'] d d' [Hk Hw] Hd IH]; simpl.
  - constructor; [by split|constructor].
  - simpl in Hk. subst k0'. destruct (String.eqb k k0).
    + constructor; [by split|done].
    + constructor; [by split|done].
Qed.

Lemma comprehension_related field xs xs' :
  Forall2 (same_read_fields field) xs xs' ->
  Forall2 (related field) (comprehension (lookup_key field) xs)
    (comprehension (lookup_key field) xs').
Proof.
  unfold comprehension. intros H.
  assert (G : forall d d', Forall2 (related field) d d' ->
            Forall2 (related field)
              (foldl (fun d x => set (lookup_key field x) x d) d xs)
              (foldl (fun d x => set (lookup_key field x) x d) d' xs')).
  { induction H as [|x x' xs xs' Hx Hxs IH]; intros d d' Hd; simpl; [done|].
    apply IH. rewrite <- (same_read_fields_key field x x' Hx).
    by apply set_related. }
  apply G. constructor.
Qed.

Lemma lookup_related field k d d' :
  Forall2 (related field) d d' ->
  match lookup k d, lookup k d' with
  | Some v, Some v' => same_read_fields field v v'
  | None, None => True
  | _, _ => False
  end.
Proof.
  induction 1 as [|[k0 w] [k0' w'] d d' [Hk Hw] Hd IH]; simpl; [done|].
  simpl in Hk. subst k0'. by destruct (String.eqb k k0).
Qed.

Lemma mem_related field k d d' :
  Forall2 (related field) d d' -> mem k d = mem k d'.
Proof.
  intros H. pose proof (lookup_related field k d d' H) as L. unfold mem.
  destruct (lookup k d), (lookup k d'); done.
Qed.

Lemma foldl_find_new_related field old old' items items' :
  Forall2 (related field) old old' -> Forall2 (related field) items items' ->
  forall ch, foldl (find_new old) ch items = foldl (find_new old') ch items'.
Proof.
  intros Ho. induction 1 as [|it it' items items' [Hk _] _ IH]; intros ch; simpl; [done|].
  rewrite <- IH. unfold find_new. by rewrite Hk, (mem_related field _ old old').
Qed.

Lemma foldl_find_removed_related field new new' items items' :
  Forall2 (related field) new new' -> Forall2 (related field) items items' ->
  forall ch, foldl (find_removed new) ch items = foldl (find_removed new') ch items'.
Proof.
  intros Ho. induction 1 as [|it it' items items' [Hk _] _ IH]; intros ch; simpl; [done|].
  rewrite <- IH. unfold find_removed. by rewrite Hk, (mem_related field _ new new').
Qed.

Lemma foldl_find_updated_related field old old' items items' :
  Forall2 (related field) old old' -> Forall2 (related field) items items' ->
  forall ch, foldl (find_updated old) ch items = foldl (find_updated old') ch items'.
Proof.
  intros Ho. induction 1 as [|it it' items items' [Hk Hv] _ IH]; intros ch; simpl; [done|].
  rewrite <- IH. f_equal. unfold find_updated. rewrite <- Hk.
  pose proof (lookup_related field it.1 old old' Ho) as L.
  destruct (lookup it.1 old) as [o|], (lookup it.1 old') as [o'|]; try done.
  destruct L as (_ & _ & Lp & Lk). destruct Hv as (_ & _ & Vp & Vk).
  unfold get. by rewrite Lp, Lk, Vp, Vk.
Qed.

Lemma detect_changes_related field old old' new new' :
  Forall2 (same_read_fields field) old old' ->
  Forall2 (same_read_fields field) new new' ->
  detect_changes_on field old new = detect_changes_on field old' new'.
Proof.
  intros Ho Hn. unfold detect_changes_on.
  pose proof (comprehension_related field old old' Ho) as Lo.
  pose proof (comprehension_related field new new' Hn) as Ln.
  rewrite (foldl_find_new_related field _ _ _ _ Lo Ln).
  rewrite (foldl_find_removed_related field _ _ _ _ Ln Lo).
  by rewrite (foldl_find_updated_related field _ _ _ _ Lo Ln).
Qed.

End ReadFieldsFacts.

(** X5. Against an empty old snapshot every distinct key of the new
    snapshot is new and nothing else is counted; against an empty new
    snapshot every distinct key of the old one is removed and nothing
    else is counted. *)
Theorem detect_changes_with_empty_snapshot
    (field : string) (data : list PyVal.record) :
  ChangeDetector.detect_changes_on field [] data
  = ChangeDetector.Changes (Z.of_nat (size (KeySets.key_set field data))) 0 0 0 0
  /\ ChangeDetector.detect_changes_on field data []
     = ChangeDetector.Changes 0 0 (Z.of_nat (size (KeySets.key_set field data))) 0 0.
Proof.
  unfold ChangeDetector.detect_changes_on.
  change (PyDict.comprehension (ChangeDetector.lookup_key field) []) with
    (@nil (string * PyVal.record)).
  split.
  - rewrite ReadFieldsFacts.foldl_find_updated_nil. cbn [foldl].
    rewrite ChangeDetectorFacts.foldl_find_new, ReadFieldsFacts.missing_from_nil.
    by rewrite KeySetFacts.length_comprehension.
  - cbn [foldl]. rewrite ChangeDetectorFacts.foldl_find_removed,
      ReadFieldsFacts.missing_from_nil.
    by rewrite KeySetFacts.length_comprehension.
Qed.

(** X6. [detect_changes] reads four fields of a record: the provider
    [udbyder], the field of the key, the price [pris_mdr] and the
    promotion [kampagne]. Two pairs of snapshots whose records agree one
    by one on these fields have the same change set, whatever their other
    fields hold. *)
Theorem detect_changes_reads_four_fields
    (field : string) (old_data old_data' new_data new_data' : list PyVal.record) :
  Forall2 (KeySets.same_read_fields field) old_data old_data' ->
  Forall2 (KeySets.same_read_fields field) new_data new_data' ->
  ChangeDetector.detect_changes_on field old_data new_data
  = ChangeDetector.detect_changes_on field old_data' new_data'.
Proof. apply ReadFieldsFacts.detect_changes_related. Qed.

(** X6 on a package, and the same package with its channels and its
    binding period changed. *)
Lemma detect_changes_reads_four_fields_witness :
  let a := Samples.package "X" "Sport" 399 "Gratis" in
  let a' := <["kanaler" := PyVal.VInt 60]> (<["bindingstid_mdr" := PyVal.VInt 12]> a) in
  ChangeDetector.detect_changes_on "pakke_navn" [a] [a; a]
  = ChangeDetector.detect_changes_on "pakke_navn" [a'] [a'; a].
Proof.
  intros a a'.
  apply (detect_changes_reads_four_fields "pakke_navn" [a] [a'] [a; a] [a'; a]);
    repeat constructor.
Defined.
